(** * Private state resolution in xdchain: the Default and Multiple managers

    Shallow embedding of [core/default_psm.go], of the Multiple-strategy
    manager of package [core] and of the TOML methods of
    [istanbul.ProposerPolicy], with the properties of the private state
    manager contract stated over them.

    Conventions.
    - A Go method with a pointer receiver that returns [(T, error)] is a
      function into [result T]; a method that returns only [error] yields
      [option error], [None] standing for [nil].
    - Methods that go through the database or the trie cache are written in
      state-passing style over the manager: they return the manager as it is
      after the call next to the Go result.
    - Go maps are [gmap]s.  Iteration over a map ([for k := range m]) is not a
      function of the map: the language leaves the order open, so it is a
      relation between the map and the key sequences a run may see. *)

From Stdlib Require Import String Ascii NArith List DecimalString DecimalN.
From Stdlib.Strings Require Import Byte.
From stdpp Require Import base option list gmap strings fin_maps.

Local Open Scope string_scope.

(** ** Shared vocabulary *)

Module common.
(** [common.Hash] is a 32-byte array; its value read as a big-endian
    number.  No arithmetic is ever done on hashes, they are only compared
    and used as keys. *)
Definition Hash : Type := N.
End common.

Module types.
(** [types.PrivateStateIdentifier] is printed with [%s] by the managers: a
    string type. *)
Definition PrivateStateIdentifier : Type := string.
End types.

Export common types.

(** Error values.  The two errors that the managers build with [fmt.Errorf]
    carry the value formatted into their message:
    - [UnknownPSI psi] is "unable to find private state for context psi %s";
    - [PartyNotFound managedParty] is "unable to find private state metadata
      for managed party %s".
    The other kinds are those of section 7 that the collaborators report, and
    [DecodeError] is the failure of a TOML decoder on its input. *)
Inductive error : Type :=
| UnknownBlock
| UnknownPSI (psi : PrivateStateIdentifier)
| PartyNotFound (managedParty : string)
| MissingState
| InvalidRegistry
| DecodeError (input : string).

Inductive result (A : Type) : Type :=
| Ok (a : A)
| Err (e : error).
Arguments Ok {A} a.
Arguments Err {A} e.

(** The [error] half of a Go [(value, error)] pair. *)
Definition error_of {A} (r : result A) : option error :=
  match r with
  | Ok _ => None
  | Err e => Some e
  end.

Definition is_Ok {A} (r : result A) : Prop := exists a, r = Ok a.

(** State passing for the methods that reach storage: an action maps the
    state before the call to the Go result and the state after it. *)
Definition State (S A : Type) : Type := S -> A * S.

(** An action is read-only when it hands back the state it was given. *)
Definition read_only {S A} (m : State S A) : Prop := forall s, snd (m s) = s.

(** ** Go map iteration *)

Module gomap.
Section Range.
Context {K : Type} `{Countable K} {V : Type}.

(** [for k := range m] visits every key of [m] exactly once; the order is
    not specified and may change from one loop to the next.  [visit] is a
    sequence of keys such a loop may go through. *)
Definition range_order (m : gmap K V) (visit : list K) : Prop :=
  NoDup visit /\ list_to_set visit = dom m.

#[global] Instance range_order_dec m visit : Decision (range_order m visit).
Proof. unfold range_order. apply _. Defined.

(** The order a fixed runtime could pick: the keys as the map lists them. *)
Definition some_order (m : gmap K V) : list K := (map_to_list m).*1.
End Range.
End gomap.

(** ** Package [mps]: metadata and repositories *)

Module mps.

(** Modelled from the spec: the struct [PrivateStateMetadata] and its type
    tag are declared elsewhere in package [mps].  The record has the fields
    of section 3, [{ id, kind, managedParties }], under the names the
    managers use for them ([ID], [Type]). *)
Inductive PrivateStateType : Type := Resident | Participant.

#[global] Instance PrivateStateType_eq_dec : EqDecision PrivateStateType.
Proof. solve_decision. Defined.

Record PrivateStateMetadata : Type := {
  ID : PrivateStateIdentifier;
  Type_ : PrivateStateType;
  managedParties : gset string
}.

#[global] Instance PrivateStateMetadata_eq_dec : EqDecision PrivateStateMetadata.
Proof. solve_decision. Defined.

(** Modelled from the spec: the method [PrivateStateMetadata.NotIncludeAny]
    is declared elsewhere in package [mps].  It is the [membershipExcludes]
    of section 4.1: true iff none of the supplied parties belongs to the
    managed parties of the record. *)
Definition NotIncludeAny (psm : PrivateStateMetadata) (parties : list string) : bool :=
  forallb (fun party => bool_decide (party ∉ managedParties psm)) parties.

(** Modelled from the spec: a repository is a handle [{ psi, root,
    trieHandle }] (section 3); the handle of the Multiple strategy is bound
    to the table of per-group roots of one block. *)
Record DefaultPrivateStateRepository : Type := {
  psi : PrivateStateIdentifier;
  root : Hash;
  trieHandle : gmap string N
}.

Record MultiplePrivateStateRepository : Type := {
  privateStatesTrieRoot : Hash;
  rootByPSI : gmap string N
}.

(** The interface [mps.PrivateStateRepository], as the sum of its two
    implementations. *)
Inductive PrivateStateRepository : Type :=
| DefaultRepository (r : DefaultPrivateStateRepository)
| MultipleRepository (r : MultiplePrivateStateRepository).

End mps.

(** ** Storage collaborators *)

Module ethdb.
(** Modelled from the spec: the persistent store holds the Block-Anchored
    Root Index of either strategy (section 3) and the trie nodes, here each
    trie under its root hash with its key/value content.  A root without an
    entry in [tries] was pruned or never persisted. *)
Record Database : Type := {
  privateStateRoots : gmap N N;
  privateStatesTrieRoots : gmap N N;
  tries : gmap N (gmap string N)
}.
End ethdb.

Module rawdb.
(** Modelled from the spec: the two readers of the root index.  The
    managers bind their result to one value and pass it on as the root to
    open, so whether the block has an entry travels with that value:
    [None] is "no entry for this block hash". *)
Definition GetPrivateStateRoot (db : ethdb.Database) (blockRoot : Hash) : option Hash :=
  ethdb.privateStateRoots db !! blockRoot.

Definition GetPrivateStatesTrieRoot (db : ethdb.Database) (blockHash : Hash) : option Hash :=
  ethdb.privateStatesTrieRoots db !! blockHash.
End rawdb.

Module state.
(** Modelled from the spec: the Shared Trie Cache (section 4.2) wraps the
    persistent store. *)
Record Database : Type := {
  diskdb : ethdb.Database
}.

Definition NewDatabaseWithConfig {Config : Type}
    (db : ethdb.Database) (config : option Config) : Database :=
  {| diskdb := db |}.

Record StateDB : Type := {
  originalRoot : Hash;
  trie : gmap string N
}.

(** Modelled from the spec: [state.New(root, db, snaps)] is [openTrie]:
    it opens a view of the trie at [root] and fails with [MissingState]
    when the trie cannot be reached.  It is an action on the cache, which
    it hands back as it found it. *)
Definition New {Snaps : Type} (root : option Hash) (snaps : option Snaps) :
    State Database (result StateDB) :=
  fun db =>
    match root with
    | None => (Err MissingState, db)
    | Some r =>
        match ethdb.tries (diskdb db) !! r with
        | None => (Err MissingState, db)
        | Some t => (Ok {| originalRoot := r; trie := t |}, db)
        end
    end.
End state.

(** ** Package [rpc]: the request context *)

Module context.
(** Modelled from the spec: of the request context only the PSI it may
    carry matters here (section 9: an optional PSI parameter). *)
Record Context : Type := { privateStateIdentifier : option PrivateStateIdentifier }.

Definition Background : Context := {| privateStateIdentifier := None |}.

Definition WithPSI (psi : PrivateStateIdentifier) : Context :=
  {| privateStateIdentifier := Some psi |}.
End context.

Module rpc.
(** Modelled from the spec: [rpc.PrivateStateIdentifierFromContext] is
    declared elsewhere in package [rpc].  It yields the PSI the context
    carries and whether it carries one, as in
    [psi, ok := rpc.PrivateStateIdentifierFromContext(ctx)]; without a PSI the
    first component is the zero value of the string type. *)
Definition PrivateStateIdentifierFromContext (ctx : context.Context) :
    PrivateStateIdentifier * bool :=
  match context.privateStateIdentifier ctx with
  | Some psi => (psi, true)
  | None => ("", false)
  end.

(** The identifier a context resolves to when the reserved identifier
    [reserved] stands in for a missing PSI. *)
Definition context_psi (reserved : PrivateStateIdentifier)
    (ctx : context.Context) : PrivateStateIdentifier :=
  default reserved (context.privateStateIdentifier ctx).
End rpc.

(** ** Package [mps]: opening repositories *)

Module mps_repository.
Import mps.

(** Modelled from the spec: [mps.NewDefaultPrivateStateRepository] is
    declared elsewhere in package [mps].  Section 4.4: it looks up the single root
    recorded for [blockHash], fails with [UnknownBlock] if there is none,
    and opens one repository bound to the reserved default PSI. *)
Definition NewDefaultPrivateStateRepository
    (DefaultPrivateStateIdentifier : PrivateStateIdentifier)
    (db : ethdb.Database) (blockHash : Hash) :
    State state.Database (result PrivateStateRepository) :=
  fun cache =>
    match rawdb.GetPrivateStateRoot db blockHash with
    | None => (Err UnknownBlock, cache)
    | Some r =>
        let (opened, cache') := state.New (Snaps := unit) (Some r) None cache in
        match opened with
        | Err e => (Err e, cache')
        | Ok st =>
            (Ok (DefaultRepository
                   {| psi := DefaultPrivateStateIdentifier;
                      root := r;
                      trieHandle := state.trie st |}), cache')
        end
    end.

(** Modelled from the spec: [mps.NewMultiplePrivateStateRepository] is
    declared elsewhere in package [mps].  Section 4.4: the provider is bound to the
    table of per-group roots of the block; it fails with [UnknownBlock]
    under the same condition as the Default strategy. *)
Definition NewMultiplePrivateStateRepository
    (db : ethdb.Database) (privateStatesTrieRoot : option Hash) :
    State state.Database (result PrivateStateRepository) :=
  fun cache =>
    match privateStatesTrieRoot with
    | None => (Err UnknownBlock, cache)
    | Some r =>
        let (opened, cache') := state.New (Snaps := unit) (Some r) None cache in
        match opened with
        | Err e => (Err e, cache')
        | Ok st =>
            (Ok (MultipleRepository
                   {| privateStatesTrieRoot := r;
                      rootByPSI := state.trie st |}), cache')
        end
    end.
End mps_repository.

(** ** Package [core]: the two managers *)

Module core.
Import mps.

(** *** [core/default_psm.go] *)
Module DefaultPrivateStateManager.

Record t : Type := {
  db : ethdb.Database;
  repoCache : state.Database
}.

Definition with_repoCache (d : t) (cache : state.Database) : t :=
  {| db := db d; repoCache := cache |}.

Definition newDefaultPrivateStateManager {Config : Type}
    (db : ethdb.Database) (config : option Config) : t :=
  {| db := db; repoCache := state.NewDatabaseWithConfig db config |}.

Section Methods.
(** [types.DefaultPrivateStateIdentifier] and
    [mps.DefaultPrivateStateMetadata] are package-level values of the packages
    [types] and [mps]. *)
Variable DefaultPrivateStateIdentifier : PrivateStateIdentifier.
Variable DefaultPrivateStateMetadata : PrivateStateMetadata.

Definition StateRepository (blockHash : Hash) :
    State t (result PrivateStateRepository) :=
  fun d =>
    let (r, cache) :=
      mps_repository.NewDefaultPrivateStateRepository
        DefaultPrivateStateIdentifier (db d) blockHash (repoCache d) in
    (r, with_repoCache d cache).

Definition ResolveForManagedParty (d : t) (_ : string) :
    result PrivateStateMetadata :=
  Ok DefaultPrivateStateMetadata.

Definition ResolveForUserContext (d : t) (ctx : context.Context) :
    result PrivateStateMetadata :=
  let '(psi, ok) := rpc.PrivateStateIdentifierFromContext ctx in
  let psi := if negb ok then DefaultPrivateStateIdentifier else psi in
  Ok {| ID := psi; Type_ := Resident; managedParties := ∅ |}.

Definition PSIs (d : t) : list PrivateStateIdentifier :=
  [DefaultPrivateStateIdentifier].

(** with default implementation, all managedParties are members of the
    psm *)
Definition NotIncludeAny (d : t) (_ : PrivateStateMetadata)
    (_ : list string) : bool :=
  false.

Definition CheckAt (root : Hash) : State t (option error) :=
  fun d =>
    let (opened, cache) :=
      state.New (Snaps := unit)
        (rawdb.GetPrivateStateRoot (db d) root) None (repoCache d) in
    (error_of opened, with_repoCache d cache).
End Methods.
End DefaultPrivateStateManager.

(** *** The Multiple-strategy manager *)
Module MultiplePrivateStateManager.

Record t : Type := {
  db : ethdb.Database;
  privateStatesTrieCache : state.Database;
  residentGroupByKey : gmap string PrivateStateMetadata;
  privacyGroupById : gmap string PrivateStateMetadata
}.

Definition with_privateStatesTrieCache (m : t) (cache : state.Database) : t :=
  {| db := db m;
     privateStatesTrieCache := cache;
     residentGroupByKey := residentGroupByKey m;
     privacyGroupById := privacyGroupById m |}.

Definition newMultiplePrivateStateManager {Config : Type}
    (db : ethdb.Database) (config : option Config)
    (residentGroupByKey : gmap string PrivateStateMetadata)
    (privacyGroupById : gmap string PrivateStateMetadata) : result t :=
  Ok {| db := db;
        privateStatesTrieCache := state.NewDatabaseWithConfig db config;
        residentGroupByKey := residentGroupByKey;
        privacyGroupById := privacyGroupById |}.

Definition StateRepository (blockHash : Hash) :
    State t (result PrivateStateRepository) :=
  fun m =>
    let privateStatesTrieRoot := rawdb.GetPrivateStatesTrieRoot (db m) blockHash in
    let (r, cache) :=
      mps_repository.NewMultiplePrivateStateRepository
        (db m) privateStatesTrieRoot (privateStatesTrieCache m) in
    (r, with_privateStatesTrieCache m cache).

Definition ResolveForManagedParty (m : t) (managedParty : string) :
    result PrivateStateMetadata :=
  match residentGroupByKey m !! managedParty with
  | None => Err (PartyNotFound managedParty)
  | Some psm => Ok psm
  end.

Section Methods.
Variable DefaultPrivateStateIdentifier : PrivateStateIdentifier.

Definition ResolveForUserContext (m : t) (ctx : context.Context) :
    result PrivateStateMetadata :=
  let '(psi, ok) := rpc.PrivateStateIdentifierFromContext ctx in
  let psi := if negb ok then DefaultPrivateStateIdentifier else psi in
  match privacyGroupById m !! psi with
  | None => Err (UnknownPSI psi)
  | Some psm => Ok psm
  end.
End Methods.

(** The body of the loop of [PSIs], run over the keys in the order
    [visit]: [psis = append(psis, psi)] from the empty slice. *)
Definition PSIs_loop (visit : list PrivateStateIdentifier) :
    list PrivateStateIdentifier :=
  foldl (fun psis psi => (psis ++ [psi])%list) [] visit.

(** [PSIs m psis]: a call of [m.PSIs()] may return [psis]. *)
Definition PSIs (m : t) (psis : list PrivateStateIdentifier) : Prop :=
  exists visit,
    gomap.range_order (privacyGroupById m) visit /\ psis = PSIs_loop visit.

Definition NotIncludeAny (m : t) (psm : PrivateStateMetadata)
    (managedParties : list string) : bool :=
  mps.NotIncludeAny psm managedParties.

Definition CheckAt (root : Hash) : State t (option error) :=
  fun m =>
    let (opened, cache) :=
      state.New (Snaps := unit)
        (rawdb.GetPrivateStatesTrieRoot (db m) root) None
        (privateStatesTrieCache m) in
    (error_of opened, with_privateStatesTrieCache m cache).
End MultiplePrivateStateManager.
End core.

(** ** Package [istanbul]: the proposer policy and its TOML form *)

Module proposerPolicyToml.
(** [type proposerPolicyToml struct { Id ProposerPolicyId }] *)
Record t : Type := { Id : N }.

(** [var pp proposerPolicyToml] *)
Definition zero : t := {| Id := 0 |}.
End proposerPolicyToml.

Module istanbul.

(** [type ProposerPolicyId uint64]: a number below [2^64]. *)
Definition ProposerPolicyId : Type := N.
Definition RoundRobin : ProposerPolicyId := 0%N.
Definition Sticky : ProposerPolicyId := 1%N.

Definition is_uint64 (n : N) : Prop := (n < 2 ^ 64)%N.

(** [sync.Mutex] *)
Record Mutex : Type := { locked : bool }.

Section Policy.
(** Declared in other files of the package: the type of sort functions,
    the validator sets, and the function value that the call
    [ValidatorSortByString()] returns. *)
Variable ValidatorSortByFunc : Type.
Variable ValidatorSet : Type.
Variable ValidatorSortByString : ValidatorSortByFunc.

(** The codec of the TOML library ([toml.Marshal], [toml.Unmarshal]) at
    the type [proposerPolicyToml].  [toml.Unmarshal(input, &pp)] fills the
    struct it is given. *)
Variable toml_Marshal : proposerPolicyToml.t -> result (list byte).
Variable toml_Unmarshal :
  list byte -> proposerPolicyToml.t -> result proposerPolicyToml.t.

Record ProposerPolicy : Type := {
  Id : ProposerPolicyId;
  By : ValidatorSortByFunc;
  registry : list ValidatorSet;
  registryMU : option Mutex
}.

Definition NewProposerPolicyByIdAndSortFunc
    (id : ProposerPolicyId) (by_ : ValidatorSortByFunc) : ProposerPolicy :=
  {| Id := id; By := by_; registry := [];
     registryMU := Some {| locked := false |} |}.

Definition NewProposerPolicy (id : ProposerPolicyId) : ProposerPolicy :=
  NewProposerPolicyByIdAndSortFunc id ValidatorSortByString.

Definition NewRoundRobinProposerPolicy : ProposerPolicy :=
  NewProposerPolicy RoundRobin.

Definition NewStickyProposerPolicy : ProposerPolicy :=
  NewProposerPolicy Sticky.

Definition MarshalTOML (p : ProposerPolicy) : result (list byte) :=
  let pp := {| proposerPolicyToml.Id := Id p |} in
  toml_Marshal pp.

Definition UnmarshalTOML (input : list byte) :
    State ProposerPolicy (option error) :=
  fun p =>
    match toml_Unmarshal input proposerPolicyToml.zero with
    | Err err => (Some err, p)
    | Ok pp =>
        (None,
         {| Id := proposerPolicyToml.Id pp;
            By := ValidatorSortByString;
            registry := registry p;
            registryMU := registryMU p |})
    end.

(** The codec law the round trip rests on: what [toml.Marshal] writes for
    a well-formed struct, [toml.Unmarshal] reads back, whatever the
    struct it fills held before. *)
Definition codec_round_trip : Prop :=
  forall pp : proposerPolicyToml.t,
    is_uint64 (proposerPolicyToml.Id pp) ->
    exists bytes,
      toml_Marshal pp = Ok bytes /\
      forall pp0, toml_Unmarshal bytes pp0 = Ok pp.
End Policy.

Arguments Id {ValidatorSortByFunc ValidatorSet} p.
Arguments By {ValidatorSortByFunc ValidatorSet} p.
Arguments registry {ValidatorSortByFunc ValidatorSet} p.
Arguments registryMU {ValidatorSortByFunc ValidatorSet} p.
Arguments NewProposerPolicyByIdAndSortFunc {ValidatorSortByFunc} ValidatorSet id by_.
Arguments NewProposerPolicy {ValidatorSortByFunc} ValidatorSet ValidatorSortByString id.
Arguments NewRoundRobinProposerPolicy {ValidatorSortByFunc} ValidatorSet ValidatorSortByString.
Arguments NewStickyProposerPolicy {ValidatorSortByFunc} ValidatorSet ValidatorSortByString.
Arguments MarshalTOML {ValidatorSortByFunc ValidatorSet} toml_Marshal p.
Arguments UnmarshalTOML {ValidatorSortByFunc ValidatorSet}
  ValidatorSortByString toml_Unmarshal input _.
End istanbul.

(** A line-based codec for documents of the single key [Id], used to show
    that the codec law can be met: [Id = <decimal>] followed by a newline. *)
Module toml_line.

Definition newline : string := String (ascii_of_nat 10) "".

Fixpoint strip_prefix (prefix s : string) : option string :=
  match prefix, s with
  | EmptyString, _ => Some s
  | String a prefix', String b s' =>
      if Ascii.eqb a b then strip_prefix prefix' s' else None
  | String _ _, EmptyString => None
  end.

Fixpoint strip_newline (s : string) : option string :=
  match s with
  | EmptyString => None
  | String a EmptyString =>
      if Ascii.eqb a (ascii_of_nat 10) then Some EmptyString else None
  | String a s' => option_map (String a) (strip_newline s')
  end.

Definition Marshal (pp : proposerPolicyToml.t) : result (list byte) :=
  Ok (list_byte_of_string
        ("Id = " ++ NilEmpty.string_of_uint (N.to_uint (proposerPolicyToml.Id pp))
                 ++ newline)).

Definition Unmarshal (input : list byte) (pp : proposerPolicyToml.t) :
    result proposerPolicyToml.t :=
  let text := string_of_list_byte input in
  match strip_prefix "Id = " text with
  | None => Err (DecodeError text)
  | Some rest =>
      match strip_newline rest with
      | None => Err (DecodeError text)
      | Some digits =>
          match NilEmpty.uint_of_string digits with
          | None => Err (DecodeError text)
          | Some d =>
              let n := N.of_uint d in
              if (n <? 2 ^ 64)%N then Ok {| proposerPolicyToml.Id := n |}
              else Err (DecodeError text)
          end
      end
  end.
End toml_line.

(** ** The registry as the specification describes it *)

Module registry.
Import mps.

(** The table of groups after registering [groups] one after the other. *)
Definition registered (groups : list PrivateStateMetadata) :
    gmap string PrivateStateMetadata :=
  foldl (fun table group => <[ID group := group]> table) ∅ groups.

(** The group descriptors handed to the constructor: the values of its two
    tables. *)
Definition descriptor (byKey byId : gmap string PrivateStateMetadata)
    (g : PrivateStateMetadata) : Prop :=
  (exists party, byKey !! party = Some g) \/ (exists id, byId !! id = Some g).

(** Two descriptors share an identifier. *)
Definition shares_identifier (byKey byId : gmap string PrivateStateMetadata) : Prop :=
  exists g1 g2,
    descriptor byKey byId g1 /\ descriptor byKey byId g2 /\
    g1 <> g2 /\ ID g1 = ID g2.

(** A Resident descriptor has no managed party. *)
Definition empty_resident (byKey byId : gmap string PrivateStateMetadata) : Prop :=
  exists g,
    descriptor byKey byId g /\ Type_ g = Resident /\ managedParties g = ∅.

Definition invalid (byKey byId : gmap string PrivateStateMetadata) : Prop :=
  shares_identifier byKey byId \/ empty_resident byKey byId.

(** A validated registry (section 3): every group is filed under its own
    identifier, Resident groups have members, and the table of managed
    parties lists exactly the members of the Resident groups, each party
    under the group it belongs to. *)
Record valid (byKey byId : gmap string PrivateStateMetadata) : Prop := {
  unique_identifiers : forall k g, byId !! k = Some g -> ID g = k;
  resident_membership :
    forall k g, byId !! k = Some g -> Type_ g = Resident -> managedParties g <> ∅;
  parties_indexed :
    forall p g,
      byKey !! p = Some g <->
      byId !! ID g = Some g /\ Type_ g = Resident /\ p ∈ managedParties g
}.

(** [party] is configured: some Resident group of the table manages it. *)
Definition configured (byId : gmap string PrivateStateMetadata) (party : string) : Prop :=
  exists g, byId !! ID g = Some g /\ Type_ g = Resident /\ party ∈ managedParties g.
End registry.

Module Default := core.DefaultPrivateStateManager.
Module Multiple := core.MultiplePrivateStateManager.

(** ** Sample data used by the closed examples *)

Definition empty_db : ethdb.Database :=
  {| ethdb.privateStateRoots := ∅;
     ethdb.privateStatesTrieRoots := ∅;
     ethdb.tries := ∅ |}.

Definition sample_default : PrivateStateIdentifier := "private".

Definition sample_default_manager : Default.t :=
  Default.newDefaultPrivateStateManager empty_db (@None unit).

Definition group (id : PrivateStateIdentifier) (kind : mps.PrivateStateType)
    (parties : list string) : mps.PrivateStateMetadata :=
  {| mps.ID := id; mps.Type_ := kind; mps.managedParties := list_to_set parties |}.

Definition groupA : mps.PrivateStateMetadata := group "A" mps.Resident ["alice"].
Definition groupB : mps.PrivateStateMetadata := group "B" mps.Resident ["bob"].

Definition sample_multiple_manager : Multiple.t :=
  {| Multiple.db := empty_db;
     Multiple.privateStatesTrieCache := state.NewDatabaseWithConfig empty_db (@None unit);
     Multiple.residentGroupByKey := <["bob" := groupB]> (<["alice" := groupA]> ∅);
     Multiple.privacyGroupById := registry.registered [groupA; groupB] |}.

(** The sample registry with the two parties filed under each other's
    group. *)
Definition sample_swapped_manager : Multiple.t :=
  {| Multiple.db := empty_db;
     Multiple.privateStatesTrieCache := state.NewDatabaseWithConfig empty_db (@None unit);
     Multiple.residentGroupByKey := <["bob" := groupA]> (<["alice" := groupB]> ∅);
     Multiple.privacyGroupById := registry.registered [groupA; groupB] |}.

Definition groupE : mps.PrivateStateMetadata := group "E" mps.Resident [].
Definition groupA' : mps.PrivateStateMetadata := group "A" mps.Resident ["carol"].

(** A block hash, and a store in which only the block [1] has roots on
    record: the root [10] of a trie that can be opened under the Default
    strategy, the root [20] of one that cannot under the Multiple one. *)
Definition sample_block : Hash := 7%N.

Definition sample_db : ethdb.Database :=
  {| ethdb.privateStateRoots := {[ 1%N := 10%N ]};
     ethdb.privateStatesTrieRoots := {[ 1%N := 20%N ]};
     ethdb.tries := {[ 10%N := {[ "account" := 5%N ]} ]} |}.

Definition sample_stored_default_manager : Default.t :=
  Default.newDefaultPrivateStateManager sample_db (@None unit).

Definition sample_stored_multiple_manager : Multiple.t :=
  {| Multiple.db := sample_db;
     Multiple.privateStatesTrieCache := state.NewDatabaseWithConfig sample_db (@None unit);
     Multiple.residentGroupByKey := <["bob" := groupB]> (<["alice" := groupA]> ∅);
     Multiple.privacyGroupById := registry.registered [groupA; groupB] |}.

(** Validator sets and sort functions of the sample policies: sets are lists
    of names, a sort function reorders such a list. *)
Definition sample_sort_by_string : list string -> list string := fun names => names.

Definition sample_sticky : istanbul.ProposerPolicy (list string -> list string) (list string) :=
  istanbul.NewStickyProposerPolicy (list string) sample_sort_by_string.

Definition sample_fresh : istanbul.ProposerPolicy (list string -> list string) (list string) :=
  istanbul.NewRoundRobinProposerPolicy (list string) (fun names => rev names).

(** ** Calls that may not return *)

(** How a call ends: it returns, it panics (a nil pointer is dereferenced, a
    mutex that is not held is unlocked), or it waits for a mutex that is
    held. *)
Inductive outcome (A : Type) : Type :=
| Returns (a : A)
| Panics
| Blocks.
Arguments Returns {A} a.
Arguments Panics {A}.
Arguments Blocks {A}.

Module sync.
(** [mu.Lock()] and [mu.Unlock()] on a [*sync.Mutex]; [None] is the nil
    pointer.  They yield the mutex as the call leaves it. *)
Definition Lock (mu : option istanbul.Mutex) : outcome (option istanbul.Mutex) :=
  match mu with
  | None => Panics
  | Some m =>
      if istanbul.locked m then Blocks
      else Returns (Some {| istanbul.locked := true |})
  end.

Definition Unlock (mu : option istanbul.Mutex) : outcome (option istanbul.Mutex) :=
  match mu with
  | None => Panics
  | Some m =>
      if istanbul.locked m then Returns (Some {| istanbul.locked := false |})
      else Panics
  end.
End sync.

(** ** Package [istanbul]: the registry of validator sets *)

Module policy.
Section Registry.
Variable ValidatorSortByFunc : Type.
Variable ValidatorSet : Type.
Variable ValidatorSortByString : ValidatorSortByFunc.
Variable toml_Unmarshal :
  list byte -> proposerPolicyToml.t -> result proposerPolicyToml.t.

(** [validatorSet.SortValidators()] is a method of the interface
    [ValidatorSet], declared in another file of the package: it reorders the
    validators of the set it is called on.  A registered set is an interface
    value and may be nil, and the method is code of the set: the call may
    panic.  The parameter gives, for the sort function in force and a set,
    how the call ends and the set as the call leaves it. *)
Variable SortValidators :
  ValidatorSortByFunc -> ValidatorSet -> outcome unit * ValidatorSet.

Local Abbreviation ProposerPolicy :=
  (istanbul.ProposerPolicy ValidatorSortByFunc ValidatorSet).

(** The loop of [Use]: the sets of the registry are sorted one after the
    other, in place; a call that does not return ends the loop, with the
    sets before it sorted and those after it untouched. *)
Fixpoint sort_all (v : ValidatorSortByFunc) (registry : list ValidatorSet) :
    outcome unit * list ValidatorSet :=
  match registry with
  | [] => (Returns tt, [])
  | validatorSet :: rest =>
      match SortValidators v validatorSet with
      | (Returns _, sorted) =>
          let (ended, rest') := sort_all v rest in (ended, sorted :: rest')
      | (Panics, stuck) => (Panics, stuck :: rest)
      | (Blocks, stuck) => (Blocks, stuck :: rest)
      end
  end.

(** [Use]: [p.By = v], then every set of the registry is sorted. *)
Definition Use (v : ValidatorSortByFunc) : State ProposerPolicy (outcome unit) :=
  fun p =>
    let p1 : ProposerPolicy :=
      {| istanbul.Id := istanbul.Id p;
         istanbul.By := v;
         istanbul.registry := istanbul.registry p;
         istanbul.registryMU := istanbul.registryMU p |} in
    let (ended, registry') := sort_all (istanbul.By p1) (istanbul.registry p1) in
    (ended,
     {| istanbul.Id := istanbul.Id p1;
        istanbul.By := istanbul.By p1;
        istanbul.registry := registry';
        istanbul.registryMU := istanbul.registryMU p1 |}).

(** The body of a method that holds the registry mutex: [Lock], the change
    [body] of the registry, and the deferred [Unlock]. *)
Definition locked_update (body : list ValidatorSet -> list ValidatorSet) :
    State ProposerPolicy (outcome unit) :=
  fun p =>
    match sync.Lock (istanbul.registryMU p) with
    | Panics => (Panics, p)
    | Blocks => (Blocks, p)
    | Returns held =>
        let changed := body (istanbul.registry p) in
        match sync.Unlock held with
        | Returns released =>
            (Returns tt,
             {| istanbul.Id := istanbul.Id p;
                istanbul.By := istanbul.By p;
                istanbul.registry := changed;
                istanbul.registryMU := released |})
        | Panics =>
            (Panics,
             {| istanbul.Id := istanbul.Id p;
                istanbul.By := istanbul.By p;
                istanbul.registry := changed;
                istanbul.registryMU := held |})
        | Blocks =>
            (Blocks,
             {| istanbul.Id := istanbul.Id p;
                istanbul.By := istanbul.By p;
                istanbul.registry := changed;
                istanbul.registryMU := held |})
        end
    end.

Definition RegisterValidatorSet (valSet : ValidatorSet) :
    State ProposerPolicy (outcome unit) :=
  locked_update
    (fun registry =>
       if (length registry =? 0)%nat then [valSet]
       else (registry ++ [valSet])%list).

Definition ClearRegistry : State ProposerPolicy (outcome unit) :=
  locked_update (fun _ => []).

(** Calls on one policy, and running them one after the other; a call that
    does not return ends the run.  [UnmarshalTOML] returns an error value and
    so always returns. *)
Inductive call : Type :=
| CallUse (v : ValidatorSortByFunc)
| CallRegisterValidatorSet (valSet : ValidatorSet)
| CallClearRegistry
| CallUnmarshalTOML (input : list byte).

Definition run_call (c : call) : State ProposerPolicy (outcome unit) :=
  fun p =>
    match c with
    | CallUse v => Use v p
    | CallRegisterValidatorSet valSet => RegisterValidatorSet valSet p
    | CallClearRegistry => ClearRegistry p
    | CallUnmarshalTOML input =>
        let (_, p') :=
          istanbul.UnmarshalTOML ValidatorSortByString toml_Unmarshal input p in
        (Returns tt, p')
    end.

Fixpoint run_calls (cs : list call) : State ProposerPolicy (outcome unit) :=
  fun p =>
    match cs with
    | [] => (Returns tt, p)
    | c :: cs' =>
        match run_call c p with
        | (Returns _, p') => run_calls cs' p'
        | stopped => stopped
        end
    end.

(** What a call does to a registry seen as a plain list, and how it ends. *)
Definition registry_step (registry : list ValidatorSet) (c : call) :
    outcome unit * list ValidatorSet :=
  match c with
  | CallUse v => sort_all v registry
  | CallRegisterValidatorSet valSet => (Returns tt, (registry ++ [valSet])%list)
  | CallClearRegistry => (Returns tt, [])
  | CallUnmarshalTOML _ => (Returns tt, registry)
  end.

Fixpoint registry_run (registry : list ValidatorSet) (cs : list call) :
    outcome unit * list ValidatorSet :=
  match cs with
  | [] => (Returns tt, registry)
  | c :: cs' =>
      match registry_step registry c with
      | (Returns _, registry') => registry_run registry' cs'
      | stopped => stopped
      end
  end.

(** The same when every sort returns: [Use] maps the sets to their sorted
    form. *)
Definition sorted_step (registry : list ValidatorSet) (c : call) :
    list ValidatorSet :=
  match c with
  | CallUse v => (fun validatorSet => snd (SortValidators v validatorSet)) <$> registry
  | CallRegisterValidatorSet valSet => (registry ++ [valSet])%list
  | CallClearRegistry => []
  | CallUnmarshalTOML _ => registry
  end.

(** Sets on which sorting returns: [sortable] is a class of sets that
    [SortValidators] returns on and does not lead out of. *)
Definition sort_returns (sortable : ValidatorSet -> Prop) : Prop :=
  forall v validatorSet,
    sortable validatorSet ->
    exists sorted,
      SortValidators v validatorSet = (Returns tt, sorted) /\ sortable sorted.

(** The sets that the calls register are all in [sortable]. *)
Definition registers (sortable : ValidatorSet -> Prop) (cs : list call) : Prop :=
  Forall (fun c =>
            match c with
            | CallRegisterValidatorSet valSet => sortable valSet
            | _ => True
            end) cs.

Definition is_decode (c : call) : bool :=
  match c with CallUnmarshalTOML _ => true | _ => false end.

(** The mutex of a policy is in place and free. *)
Definition mutex_free (p : ProposerPolicy) : Prop :=
  istanbul.registryMU p = Some {| istanbul.locked := false |}.
End Registry.

Arguments sort_all {ValidatorSortByFunc ValidatorSet} SortValidators v registry.
Arguments Use {ValidatorSortByFunc ValidatorSet} SortValidators v _.
Arguments locked_update {ValidatorSortByFunc ValidatorSet} body _.
Arguments RegisterValidatorSet {ValidatorSortByFunc ValidatorSet} valSet _.
Arguments ClearRegistry {ValidatorSortByFunc ValidatorSet} _.
Arguments CallUse {ValidatorSortByFunc ValidatorSet} v.
Arguments CallRegisterValidatorSet {ValidatorSortByFunc ValidatorSet} valSet.
Arguments CallClearRegistry {ValidatorSortByFunc ValidatorSet}.
Arguments CallUnmarshalTOML {ValidatorSortByFunc ValidatorSet} input.
Arguments run_call {ValidatorSortByFunc ValidatorSet}
  ValidatorSortByString toml_Unmarshal SortValidators c _.
Arguments run_calls {ValidatorSortByFunc ValidatorSet}
  ValidatorSortByString toml_Unmarshal SortValidators cs _.
Arguments registry_step {ValidatorSortByFunc ValidatorSet} SortValidators registry c.
Arguments registry_run {ValidatorSortByFunc ValidatorSet} SortValidators registry cs.
Arguments sorted_step {ValidatorSortByFunc ValidatorSet} SortValidators registry c.
Arguments sort_returns {ValidatorSortByFunc ValidatorSet} SortValidators sortable.
Arguments registers {ValidatorSortByFunc ValidatorSet} sortable cs.
Arguments is_decode {ValidatorSortByFunc ValidatorSet} c.
Arguments mutex_free {ValidatorSortByFunc ValidatorSet} p.
End policy.

(** ** Package [istanbul]: the consensus configuration *)

Module big.
(** [math/big]: a [*big.Int] that is not nil is its value in [Z].
    [x.Uint64()] is the low 64 bits of the magnitude of [x]; [x.Int64()]
    reads them as a signed 64-bit number and negates it for a negative [x],
    wrapping around. *)
Definition to_int64 (u : Z) : Z := ((u + 2 ^ 63) mod 2 ^ 64 - 2 ^ 63)%Z.

Definition Uint64 (x : Z) : Z := (Z.abs x mod 2 ^ 64)%Z.

Definition Int64 (x : Z) : Z :=
  let v := to_int64 (Uint64 x) in
  if (x <? 0)%Z then to_int64 (- v) else v.

Definition Cmp (x y : Z) : Z :=
  match (x ?= y)%Z with
  | Lt => (-1)%Z
  | Eq => 0%Z
  | Gt => 1%Z
  end.

(** The values an [int64] holds. *)
Definition is_int64 (x : Z) : Prop := (- 2 ^ 63 <= x < 2 ^ 63)%Z.
End big.

Module config.
Section Config.
Variable ValidatorSortByFunc : Type.
Variable ValidatorSet : Type.
Variable ValidatorSortByString : ValidatorSortByFunc.

Record Config : Type := {
  RequestTimeout : N;
  BlockPeriod : N;
  ProposerPolicy : option (istanbul.ProposerPolicy ValidatorSortByFunc ValidatorSet);
  Epoch : N;
  Ceil2Nby3Block : option Z;
  AllowedFutureBlockTime : N;
  TestQBFTBlock : option Z
}.

Definition DefaultConfig : Config :=
  {| RequestTimeout := 10000;
     BlockPeriod := 1;
     ProposerPolicy :=
       Some (istanbul.NewRoundRobinProposerPolicy ValidatorSet ValidatorSortByString);
     Epoch := 30000;
     Ceil2Nby3Block := Some 0%Z;
     AllowedFutureBlockTime := 0;
     TestQBFTBlock := Some 0%Z |}.

(** QBFTBlockNumber returns the qbftBlock fork block number, returns -1 if
    qbftBlock is not defined *)
Definition QBFTBlockNumber (c : Config) : Z :=
  match TestQBFTBlock c with
  | None => (-1)%Z
  | Some qbftBlock => big.Int64 qbftBlock
  end.

(** IsQBFTConsensusAt checks if qbft consensus is enabled for the block
    height identified by the given header.  The receiver is a [*Config] and
    [blockNumber] a [*big.Int], [None] being nil: reading [c.TestQBFTBlock]
    through a nil receiver panics, and so does comparing a nil block
    number. *)
Definition IsQBFTConsensusAt (c : option Config) (blockNumber : option Z) :
    outcome bool :=
  match c with
  | None => Panics
  | Some c =>
      match TestQBFTBlock c with
      | None => Returns false
      | Some qbftBlock =>
          if (big.Uint64 qbftBlock =? 0)%Z then Returns true
          else
            match blockNumber with
            | None => Panics
            | Some number =>
                if (big.Cmp number qbftBlock >=? 0)%Z then Returns true
                else Returns false
            end
      end
  end.
End Config.

Arguments RequestTimeout {ValidatorSortByFunc ValidatorSet} c.
Arguments BlockPeriod {ValidatorSortByFunc ValidatorSet} c.
Arguments ProposerPolicy {ValidatorSortByFunc ValidatorSet} c.
Arguments Epoch {ValidatorSortByFunc ValidatorSet} c.
Arguments Ceil2Nby3Block {ValidatorSortByFunc ValidatorSet} c.
Arguments AllowedFutureBlockTime {ValidatorSortByFunc ValidatorSet} c.
Arguments TestQBFTBlock {ValidatorSortByFunc ValidatorSet} c.
Arguments DefaultConfig {ValidatorSortByFunc} ValidatorSet ValidatorSortByString.
Arguments QBFTBlockNumber {ValidatorSortByFunc ValidatorSet} c.
Arguments IsQBFTConsensusAt {ValidatorSortByFunc ValidatorSet} c blockNumber.
End config.

(** ** Further sample data and side conditions *)

(** Sorting a sample set applies the sort function in force to its names. *)
Definition sample_sort_validators
    (by_ : list string -> list string) (set : list string) :
    outcome unit * list string :=
  (Returns tt, by_ set).

(** Sample sets that may be nil: sorting a nil set panics. *)
Definition sample_sort_nilable
    (by_ : list string -> list string) (set : option (list string)) :
    outcome unit * option (list string) :=
  match set with
  | None => (Panics, None)
  | Some names => (Returns tt, Some (by_ names))
  end.

Definition sample_nilable_policy :
    istanbul.ProposerPolicy (list string -> list string) (option (list string)) :=
  istanbul.NewStickyProposerPolicy (option (list string)) sample_sort_by_string.


Definition sample_nilable_calls :
    list (policy.call (list string -> list string) (option (list string))) :=
  [ policy.CallRegisterValidatorSet (Some ["v2"; "v1"]);
    policy.CallUse (fun names => rev names);
    policy.CallRegisterValidatorSet (Some ["v3"]);
    policy.CallUnmarshalTOML (list_byte_of_string "Id = x") ].

(** A policy as a zero-valued struct is after decoding: no mutex. *)
Definition sample_decoded :
    istanbul.ProposerPolicy (list string -> list string) (list string) :=
  {| istanbul.Id := istanbul.Sticky;
     istanbul.By := sample_sort_by_string;
     istanbul.registry := [];
     istanbul.registryMU := None |}.

Definition sample_calls :
    list (policy.call (list string -> list string) (list string)) :=
  [ policy.CallRegisterValidatorSet ["v2"; "v1"];
    policy.CallUse (fun names => rev names);
    policy.CallClearRegistry;
    policy.CallRegisterValidatorSet ["v3"];
    policy.CallRegisterValidatorSet ["v5"; "v4"] ].

(** A configuration that turns QBFT on at block 5. *)
Definition sample_config : config.Config (list string -> list string) (list string) :=
  {| config.RequestTimeout := 10000;
     config.BlockPeriod := 1;
     config.ProposerPolicy := Some sample_sticky;
     config.Epoch := 30000;
     config.Ceil2Nby3Block := Some 0%Z;
     config.AllowedFutureBlockTime := 0;
     config.TestQBFTBlock := Some 5%Z |}.

(** The fork block of a configuration, if it has one, is a block height that
    fits an [int64]. *)
Definition fork_block_is_height {F S : Type} (c : config.Config F S) : Prop :=
  forall qbftBlock,
    config.TestQBFTBlock c = Some qbftBlock -> (0 <= qbftBlock < 2 ^ 63)%Z.

(** * Properties *)

(** ** The model at work on the sample data *)

Example Default_StateRepository_block_1 :
  fst (Default.StateRepository sample_default 1%N sample_stored_default_manager)
  = Ok (mps.DefaultRepository
          {| mps.psi := "private"; mps.root := 10%N;
             mps.trieHandle := {[ "account" := 5%N ]} |}).
Proof. vm_compute. reflexivity. Qed.

Example Multiple_StateRepository_block_1 :
  fst (Multiple.StateRepository 1%N sample_stored_multiple_manager)
  = Err MissingState.
Proof. vm_compute. reflexivity. Qed.

Example Default_CheckAt_block_1 :
  fst (Default.CheckAt 1%N sample_stored_default_manager) = None.
Proof. vm_compute. reflexivity. Qed.

Example Default_CheckAt_block_7 :
  fst (Default.CheckAt sample_block sample_stored_default_manager)
  = Some MissingState.
Proof. vm_compute. reflexivity. Qed.

Example Multiple_ResolveForUserContext_background :
  Multiple.ResolveForUserContext "A" sample_multiple_manager context.Background
  = Ok groupA.
Proof. vm_compute. reflexivity. Qed.

Example Multiple_ResolveForUserContext_no_default :
  Multiple.ResolveForUserContext sample_default sample_multiple_manager
    context.Background = Err (UnknownPSI "private").
Proof. vm_compute. reflexivity. Qed.

Example Multiple_ResolveForUserContext_unknown :
  Multiple.ResolveForUserContext "A" sample_multiple_manager (context.WithPSI "C")
  = Err (UnknownPSI "C").
Proof. vm_compute. reflexivity. Qed.

Example Multiple_NotIncludeAny_sample :
  Multiple.NotIncludeAny sample_multiple_manager groupA ["bob"; "carol"] = true /\
  Multiple.NotIncludeAny sample_multiple_manager groupA ["bob"; "alice"] = false.
Proof. split; vm_compute; reflexivity. Qed.

Example toml_line_Marshal_sticky :
  istanbul.MarshalTOML toml_line.Marshal sample_sticky
  = Ok (list_byte_of_string ("Id = 1" ++ toml_line.newline)).
Proof. reflexivity. Qed.

Example toml_line_Unmarshal_rejects :
  toml_line.Unmarshal (list_byte_of_string "Id = x") proposerPolicyToml.zero
  = Err (DecodeError "Id = x").
Proof. reflexivity. Qed.

(** ** Resolution under the Default strategy *)

Section DefaultResolution.
Variable DefaultPrivateStateIdentifier : PrivateStateIdentifier.
Variable DefaultPrivateStateMetadata : mps.PrivateStateMetadata.

Local Abbreviation ResolveForManagedParty :=
  (Default.ResolveForManagedParty DefaultPrivateStateMetadata).
Local Abbreviation ResolveForUserContext :=
  (Default.ResolveForUserContext DefaultPrivateStateIdentifier).

Lemma Default_ResolveForUserContext_eq (d : Default.t) (ctx : context.Context) :
  ResolveForUserContext d ctx =
  Ok {| mps.ID := rpc.context_psi DefaultPrivateStateIdentifier ctx; mps.Type_ := mps.Resident;
        mps.managedParties := ∅ |}.
Proof.
  unfold Default.ResolveForUserContext, rpc.PrivateStateIdentifierFromContext,
    rpc.context_psi.
  destruct ctx as [[psi|]]; reflexivity.
Qed.

(** C1 (as amended).  Under the Default strategy [ResolveForManagedParty]
    returns the package's one default metadata record whatever the key;
    [ResolveForUserContext] returns a Resident record without managed
    parties whose identifier is the PSI of the context, and the reserved
    default identifier only when the context carries none. *)
Theorem Default_resolution_records (d : Default.t) :
  (forall managedParty : string,
      ResolveForManagedParty d managedParty = Ok DefaultPrivateStateMetadata) /\
  (forall psi : PrivateStateIdentifier,
      ResolveForUserContext d (context.WithPSI psi) =
      Ok {| mps.ID := psi; mps.Type_ := mps.Resident; mps.managedParties := ∅ |}) /\
  ResolveForUserContext d context.Background =
  Ok {| mps.ID := DefaultPrivateStateIdentifier; mps.Type_ := mps.Resident;
        mps.managedParties := ∅ |}.
Proof.
  split; [reflexivity|].
  split; [intros psi|]; apply Default_ResolveForUserContext_eq.
Qed.

(** C9.  Neither resolution of the Default strategy ever reports an error:
    for every key and every context both return a metadata record, their
    error component being [nil]. *)
Theorem Default_resolution_never_fails
    (d : Default.t) (managedParty : string) (ctx : context.Context) :
  is_Ok (ResolveForManagedParty d managedParty) /\
  error_of (ResolveForManagedParty d managedParty) = None /\
  is_Ok (ResolveForUserContext d ctx) /\
  error_of (ResolveForUserContext d ctx) = None.
Proof.
  rewrite Default_ResolveForUserContext_eq.
  unfold is_Ok, Default.ResolveForManagedParty; simpl.
  repeat split; eauto.
Qed.
End DefaultResolution.

(** C1, the claim as written fails: the record that [ResolveForUserContext]
    returns follows the PSI of the context, so two contexts with different
    PSIs get different records and no single record is returned for all. *)
Lemma Default_ResolveForUserContext_follows_context :
  Default.ResolveForUserContext sample_default sample_default_manager
    (context.WithPSI "PS1") = Ok (group "PS1" mps.Resident []) /\
  Default.ResolveForUserContext sample_default sample_default_manager
    (context.WithPSI "PS2") = Ok (group "PS2" mps.Resident []) /\
  ~ (exists single : mps.PrivateStateMetadata,
        forall ctx,
          Default.ResolveForUserContext sample_default sample_default_manager ctx
          = Ok single).
Proof.
  split; [reflexivity|]. split; [reflexivity|].
  intros [single Hsingle].
  pose proof (Hsingle (context.WithPSI "PS1")) as H1.
  pose proof (Hsingle (context.WithPSI "PS2")) as H2.
  rewrite Default_ResolveForUserContext_eq in H1, H2.
  unfold rpc.context_psi in H1, H2; simpl in H1, H2.
  rewrite <- H2 in H1. discriminate H1.
Qed.

(** ** Enumerating the identifiers *)

Section Enumeration.

Lemma PSIs_loop_from (acc visit : list PrivateStateIdentifier) :
  foldl (fun psis psi => (psis ++ [psi])%list) acc visit = (acc ++ visit)%list.
Proof.
  revert acc; induction visit as [|psi visit IH]; intros acc; simpl.
  - symmetry; apply app_nil_r.
  - rewrite IH, <- app_assoc. reflexivity.
Qed.

(** The loop returns the identifiers in the order it visited them. *)
Lemma PSIs_loop_id (visit : list PrivateStateIdentifier) :
  Multiple.PSIs_loop visit = visit.
Proof. unfold Multiple.PSIs_loop. apply PSIs_loop_from. Qed.

Context {V : Type}.

Lemma range_order_elem (m : gmap string V) (visit : list string) :
  gomap.range_order m visit -> forall k, k ∈ visit <-> is_Some (m !! k).
Proof.
  intros [_ Hdom] k.
  rewrite <- elem_of_dom, <- Hdom, elem_of_list_to_set. reflexivity.
Qed.

Lemma range_order_length (m : gmap string V) (visit : list string) :
  gomap.range_order m visit -> length visit = size m.
Proof.
  intros [Hnodup Hdom].
  rewrite <- (size_dom (D := gset string) m), <- Hdom.
  symmetry; apply size_list_to_set, Hnodup.
Qed.

(** Every map has an order in which a loop can visit it. *)
Lemma some_order_range (m : gmap string V) :
  gomap.range_order m (gomap.some_order m).
Proof.
  split.
  - apply NoDup_fst_map_to_list.
  - unfold gomap.some_order. apply leibniz_equiv. symmetry. apply dom_alt.
Qed.
End Enumeration.

(** C2 (as amended).  [PSIs] of the Default strategy is exactly the reserved
    default identifier.  [PSIs] of the Multiple strategy always has a result,
    and every result lists each known identifier exactly once: it has no
    repetition, holds precisely the keys of the table of groups, and is as
    long as the table is large.  The order of the result is the order in
    which the loop happened to visit the map; it is not fixed by the table. *)
Theorem PSIs_enumerate
    (DefaultPrivateStateIdentifier : PrivateStateIdentifier)
    (d : Default.t) (m : Multiple.t) (psis : list PrivateStateIdentifier) :
  Multiple.PSIs m psis ->
  Default.PSIs DefaultPrivateStateIdentifier d = [DefaultPrivateStateIdentifier] /\
  Multiple.PSIs m (gomap.some_order (Multiple.privacyGroupById m)) /\
  NoDup psis /\
  (forall psi, psi ∈ psis <-> is_Some (Multiple.privacyGroupById m !! psi)) /\
  length psis = size (Multiple.privacyGroupById m).
Proof.
  intros (visit & Hvisit & ->). rewrite PSIs_loop_id.
  split; [reflexivity|]. split.
  { exists (gomap.some_order (Multiple.privacyGroupById m)).
    split; [apply some_order_range | symmetry; apply PSIs_loop_id]. }
  split; [apply Hvisit|].
  split; [apply range_order_elem, Hvisit | apply range_order_length, Hvisit].
Qed.

Lemma sample_range_BA :
  gomap.range_order (Multiple.privacyGroupById sample_multiple_manager) ["B"; "A"].
Proof. apply (bool_decide_unpack _). vm_compute. exact I. Qed.

Lemma sample_range_AB :
  gomap.range_order (Multiple.privacyGroupById sample_multiple_manager) ["A"; "B"].
Proof. apply (bool_decide_unpack _). vm_compute. exact I. Qed.

(** The identifiers of [PSIs_enumerate] at the sample registry, visited as
    [B], [A]. *)
Lemma PSIs_enumerate_witness :
  Multiple.PSIs sample_multiple_manager ["B"; "A"] /\
  Default.PSIs sample_default sample_default_manager = [sample_default] /\
  NoDup ["B"; "A"] /\
  length ["B"; "A"] = size (Multiple.privacyGroupById sample_multiple_manager).
Proof.
  assert (Multiple.PSIs sample_multiple_manager ["B"; "A"]) as HBA.
  { exists ["B"; "A"]. split; [exact sample_range_BA | reflexivity]. }
  split; [exact HBA|].
  destruct (PSIs_enumerate sample_default sample_default_manager
              sample_multiple_manager ["B"; "A"] HBA)
    as (Hdefault & _ & Hnodup & _ & Hlen).
  split; [exact Hdefault|]. split; [exact Hnodup | exact Hlen].
Defined.

(** C2, the claim as written fails: the groups [A] then [B] were registered
    in this order, yet [PSIs] may return [B] before [A]; it may also return
    [A] before [B], so two enumerations need not agree; and the table itself
    does not remember the order, being the same whichever group came
    first. *)
Lemma Multiple_PSIs_not_in_registration_order :
  Multiple.privacyGroupById sample_multiple_manager
    = registry.registered [groupA; groupB] /\
  Multiple.PSIs sample_multiple_manager ["B"; "A"] /\
  ["B"; "A"] <> mps.ID <$> [groupA; groupB] /\
  Multiple.PSIs sample_multiple_manager ["A"; "B"] /\
  registry.registered [groupA; groupB] = registry.registered [groupB; groupA].
Proof.
  split; [reflexivity|].
  split; [exists ["B"; "A"]; split; [exact sample_range_BA | reflexivity]|].
  split; [discriminate|].
  split; [exists ["A"; "B"]; split; [exact sample_range_AB | reflexivity]|].
  unfold registry.registered; simpl.
  apply insert_insert_ne. discriminate.
Qed.

(** ** Construction of the Multiple-strategy manager *)

(** C3 (as amended).  The constructor of the Multiple-strategy manager does
    not inspect the tables it is given: for every store, configuration and
    pair of tables it succeeds, and the manager it returns holds exactly
    that store and those tables. *)
Theorem newMultiplePrivateStateManager_total
    {Config : Type} (db : ethdb.Database) (config : option Config)
    (residentGroupByKey privacyGroupById : gmap string mps.PrivateStateMetadata) :
  exists m : Multiple.t,
    Multiple.newMultiplePrivateStateManager db config
      residentGroupByKey privacyGroupById = Ok m /\
    Multiple.db m = db /\
    Multiple.residentGroupByKey m = residentGroupByKey /\
    Multiple.privacyGroupById m = privacyGroupById.
Proof. eexists; repeat split. Qed.

(** C3, the claim as written fails: a Resident group without managed
    parties, and two distinct descriptors with the identifier [A], are both
    accepted by the constructor, which reports no error. *)
Lemma newMultiplePrivateStateManager_accepts_invalid :
  registry.invalid ∅ {[ "E" := groupE ]} /\
  is_Ok (Multiple.newMultiplePrivateStateManager empty_db (@None unit)
           ∅ {[ "E" := groupE ]}) /\
  registry.invalid (<["carol" := groupA']> {[ "alice" := groupA ]}) {[ "A" := groupA ]} /\
  is_Ok (Multiple.newMultiplePrivateStateManager empty_db (@None unit)
           (<["carol" := groupA']> {[ "alice" := groupA ]}) {[ "A" := groupA ]}) /\
  ~ (forall byKey byId,
        registry.invalid byKey byId ->
        Multiple.newMultiplePrivateStateManager empty_db (@None unit) byKey byId
        = Err InvalidRegistry).
Proof.
  assert (registry.invalid ∅ {[ "E" := groupE ]}) as HE.
  { right. exists groupE. split; [|split; reflexivity].
    right. exists "E". apply lookup_singleton_eq. }
  split; [exact HE|].
  split; [eexists; reflexivity|].
  split.
  { left. exists groupA, groupA'. repeat split.
    - left. exists "alice". rewrite lookup_insert_ne by discriminate.
      apply lookup_singleton_eq.
    - left. exists "carol". apply lookup_insert_eq.
    - intros Heq. apply (f_equal mps.managedParties) in Heq.
      assert ("alice" ∈ mps.managedParties groupA') as Hin.
      { rewrite <- Heq. vm_compute. set_solver. }
      revert Hin. vm_compute. set_solver. }
  split; [eexists; reflexivity|].
  intros Hall. specialize (Hall _ _ HE). discriminate Hall.
Qed.

(** ** Storage: repositories and the consistency check *)

Lemma state_New_read_only {Snaps : Type} (root : option Hash) (snaps : option Snaps) :
  read_only (state.New root snaps).
Proof.
  intros cache. unfold state.New.
  destruct root as [r|]; [|reflexivity].
  destruct (ethdb.tries (state.diskdb cache) !! r); reflexivity.
Qed.

Lemma state_New_outcome {Snaps : Type} (root : option Hash) (snaps : option Snaps)
    (cache : state.Database) :
  error_of (fst (state.New root snaps cache)) = None \/
  error_of (fst (state.New root snaps cache)) = Some MissingState.
Proof.
  unfold state.New.
  destruct root as [r|]; [|right; reflexivity].
  destruct (ethdb.tries (state.diskdb cache) !! r); [left|right]; reflexivity.
Qed.

Lemma Default_with_repoCache_id (d : Default.t) :
  Default.with_repoCache d (Default.repoCache d) = d.
Proof. destruct d; reflexivity. Qed.

Lemma Multiple_with_cache_id (m : Multiple.t) :
  Multiple.with_privateStatesTrieCache m (Multiple.privateStatesTrieCache m) = m.
Proof. destruct m; reflexivity. Qed.

Lemma Default_CheckAt_read_only (root : Hash) : read_only (Default.CheckAt root).
Proof.
  intros d. unfold Default.CheckAt.
  pose proof (state_New_read_only (Snaps := unit)
                (rawdb.GetPrivateStateRoot (Default.db d) root) None
                (Default.repoCache d)) as Hframe.
  destruct (state.New _ _ _) as [opened cache]; simpl in *; subst cache.
  apply Default_with_repoCache_id.
Qed.

Lemma Multiple_CheckAt_read_only (root : Hash) : read_only (Multiple.CheckAt root).
Proof.
  intros m. unfold Multiple.CheckAt.
  pose proof (state_New_read_only (Snaps := unit)
                (rawdb.GetPrivateStatesTrieRoot (Multiple.db m) root) None
                (Multiple.privateStatesTrieCache m)) as Hframe.
  destruct (state.New _ _ _) as [opened cache]; simpl in *; subst cache.
  apply Multiple_with_cache_id.
Qed.

(** C8.  [CheckAt] changes nothing, under either strategy and whatever it
    reports: the manager after the call, with its store (the root index and
    the tries under their roots) and its cache, is the manager before the
    call; and the report is either [nil] or [MissingState]. *)
Theorem CheckAt_changes_nothing (d : Default.t) (m : Multiple.t) (root : Hash) :
  snd (Default.CheckAt root d) = d /\
  snd (Multiple.CheckAt root m) = m /\
  (fst (Default.CheckAt root d) = None \/
   fst (Default.CheckAt root d) = Some MissingState) /\
  (fst (Multiple.CheckAt root m) = None \/
   fst (Multiple.CheckAt root m) = Some MissingState).
Proof.
  split; [apply Default_CheckAt_read_only|].
  split; [apply Multiple_CheckAt_read_only|].
  split.
  - unfold Default.CheckAt.
    pose proof (state_New_outcome (Snaps := unit)
                  (rawdb.GetPrivateStateRoot (Default.db d) root) None
                  (Default.repoCache d)) as Hout.
    destruct (state.New _ _ _) as [opened cache]; exact Hout.
  - unfold Multiple.CheckAt.
    pose proof (state_New_outcome (Snaps := unit)
                  (rawdb.GetPrivateStatesTrieRoot (Multiple.db m) root) None
                  (Multiple.privateStatesTrieCache m)) as Hout.
    destruct (state.New _ _ _) as [opened cache]; exact Hout.
Qed.

(** C4.  A block hash without an entry in the root index has no repository:
    [StateRepository] reports [UnknownBlock] for it, under the Default
    strategy and under the Multiple strategy. *)
Theorem StateRepository_unknown_block
    (DefaultPrivateStateIdentifier : PrivateStateIdentifier)
    (d : Default.t) (m : Multiple.t) (blockHash : Hash) :
  ethdb.privateStateRoots (Default.db d) !! blockHash = None ->
  ethdb.privateStatesTrieRoots (Multiple.db m) !! blockHash = None ->
  fst (Default.StateRepository DefaultPrivateStateIdentifier blockHash d)
    = Err UnknownBlock /\
  fst (Multiple.StateRepository blockHash m) = Err UnknownBlock.
Proof.
  intros Hd Hm. split.
  - unfold Default.StateRepository,
      mps_repository.NewDefaultPrivateStateRepository, rawdb.GetPrivateStateRoot.
    unfold Hash in *. rewrite Hd. reflexivity.
  - unfold Multiple.StateRepository,
      mps_repository.NewMultiplePrivateStateRepository,
      rawdb.GetPrivateStatesTrieRoot.
    unfold Hash in *. rewrite Hm. reflexivity.
Qed.

(** [StateRepository_unknown_block] at the block [7] of the sample store,
    which has roots on record for the block [1] only. *)
Lemma StateRepository_unknown_block_witness :
  fst (Default.StateRepository sample_default sample_block
         sample_stored_default_manager) = Err UnknownBlock /\
  fst (Multiple.StateRepository sample_block sample_stored_multiple_manager)
    = Err UnknownBlock.
Proof.
  apply (StateRepository_unknown_block sample_default
           sample_stored_default_manager sample_stored_multiple_manager
           sample_block); vm_compute; reflexivity.
Defined.

(** ** Resolution under the Multiple strategy *)

(** [ResolveForUserContext] of the Multiple strategy, case by case. *)
Lemma Multiple_ResolveForUserContext_cases
    (DefaultPrivateStateIdentifier : PrivateStateIdentifier)
    (m : Multiple.t) (ctx : context.Context) :
  Multiple.ResolveForUserContext DefaultPrivateStateIdentifier m ctx =
  match context.privateStateIdentifier ctx with
  | None =>
      match Multiple.privacyGroupById m !! DefaultPrivateStateIdentifier with
      | Some psm => Ok psm
      | None => Err (UnknownPSI DefaultPrivateStateIdentifier)
      end
  | Some psi =>
      match Multiple.privacyGroupById m !! psi with
      | Some psm => Ok psm
      | None => Err (UnknownPSI psi)
      end
  end.
Proof.
  unfold Multiple.ResolveForUserContext, rpc.PrivateStateIdentifierFromContext.
  destruct ctx as [[psi|]]; simpl.
  - destruct (Multiple.privacyGroupById m !! psi); reflexivity.
  - destruct (Multiple.privacyGroupById m !! DefaultPrivateStateIdentifier);
      reflexivity.
Qed.

(** C5 (as amended).  [ResolveForUserContext] of the Multiple strategy looks
    up, in the table of groups, the PSI of the context, or the reserved
    default identifier when the context carries none: it returns the group
    registered under that identifier, and reports [UnknownPSI] for that
    identifier when there is no such group, also when the identifier is the
    default one.  Standing in for a missing PSI is all the defaulting the
    Multiple strategy does: a PSI carried by the context is looked up as it
    is, and [ResolveForManagedParty] reports [PartyNotFound] for a key that
    is not in the table of parties. *)
Theorem Multiple_defaulting
    (DefaultPrivateStateIdentifier : PrivateStateIdentifier) (m : Multiple.t) :
  Multiple.ResolveForUserContext DefaultPrivateStateIdentifier m context.Background =
    match Multiple.privacyGroupById m !! DefaultPrivateStateIdentifier with
    | Some psm => Ok psm
    | None => Err (UnknownPSI DefaultPrivateStateIdentifier)
    end /\
  (forall psi : PrivateStateIdentifier,
      Multiple.ResolveForUserContext DefaultPrivateStateIdentifier m
        (context.WithPSI psi) =
      match Multiple.privacyGroupById m !! psi with
      | Some psm => Ok psm
      | None => Err (UnknownPSI psi)
      end) /\
  (forall ctx : context.Context,
      ctx = context.Background \/
      exists psi, ctx = context.WithPSI psi) /\
  (forall managedParty : string,
      Multiple.ResolveForManagedParty m managedParty =
      match Multiple.residentGroupByKey m !! managedParty with
      | Some psm => Ok psm
      | None => Err (PartyNotFound managedParty)
      end).
Proof.
  split.
  { exact (Multiple_ResolveForUserContext_cases
             DefaultPrivateStateIdentifier m context.Background). }
  split.
  { intros psi.
    exact (Multiple_ResolveForUserContext_cases
             DefaultPrivateStateIdentifier m (context.WithPSI psi)). }
  split.
  - intros [[psi|]]; [right; exists psi; reflexivity | left; reflexivity].
  - intros managedParty. unfold Multiple.ResolveForManagedParty.
    destruct (Multiple.residentGroupByKey m !! managedParty); reflexivity.
Qed.

(** C5, the claim as written fails: the sample registry has the groups [A]
    and [B] and none under the reserved default identifier, so a context
    without a PSI gets an error and no metadata.  Nor is the fallback for a
    missing PSI the only defaulting of the managers: the Default strategy
    answers every party key, known or not, with its one default record. *)
Lemma Multiple_ResolveForUserContext_without_default_group :
  Multiple.privacyGroupById sample_multiple_manager !! sample_default = None /\
  Multiple.ResolveForUserContext sample_default sample_multiple_manager
    context.Background = Err (UnknownPSI sample_default) /\
  ~ (forall D m,
        exists psm,
          Multiple.privacyGroupById m !! D = Some psm /\
          Multiple.ResolveForUserContext D m context.Background = Ok psm) /\
  Default.ResolveForManagedParty groupA sample_default_manager "nobody" = Ok groupA.
Proof.
  split; [vm_compute; reflexivity|].
  split; [vm_compute; reflexivity|].
  split; [|reflexivity].
  intros Hall.
  destruct (Hall sample_default sample_multiple_manager) as (psm & _ & Hok).
  vm_compute in Hok. discriminate Hok.
Qed.

Section ManagedParties.
Import mps.

Lemma NotIncludeAny_true (psm : PrivateStateMetadata) (parties : list string) :
  mps.NotIncludeAny psm parties = true <->
  forall party, party ∈ parties -> party ∉ managedParties psm.
Proof.
  unfold mps.NotIncludeAny.
  induction parties as [|p parties IH]; simpl.
  - split; [intros _ party Hin; inversion Hin | reflexivity].
  - rewrite andb_true_iff, IH, bool_decide_eq_true. split.
    + intros [Hp Hrest] party Hin.
      apply elem_of_cons in Hin as [->|Hin]; [exact Hp | exact (Hrest _ Hin)].
    + intros Hall. split; [apply Hall; left|].
      intros party Hin. apply Hall. right. exact Hin.
Qed.

Lemma NotIncludeAny_single (psm : PrivateStateMetadata) (party : string) :
  mps.NotIncludeAny psm [party] = false <-> party ∈ managedParties psm.
Proof.
  rewrite <- not_true_iff_false, NotIncludeAny_true. split.
  - intros Hnot. destruct (decide (party ∈ managedParties psm)) as [Hin|Hout];
      [exact Hin|].
    exfalso. apply Hnot. intros q Hq.
    apply list_elem_of_singleton in Hq as ->. exact Hout.
  - intros Hin Hall. apply (Hall party); [left | exact Hin].
Qed.

(** C6 (as amended).  Under the Multiple strategy [NotIncludeAny] is true
    iff none of the supplied parties is a managed party of the record, so
    for one party it is false iff that party is a managed party.  Under the
    Default strategy it is false for every record and every list of
    parties, members or not. *)
Theorem NotIncludeAny_spec
    (d : Default.t) (m : Multiple.t)
    (psm : PrivateStateMetadata) (parties : list string) (party : string) :
  Default.NotIncludeAny d psm parties = false /\
  (Multiple.NotIncludeAny m psm parties = true <->
   forall p, p ∈ parties -> p ∉ managedParties psm) /\
  (Multiple.NotIncludeAny m psm [party] = false <-> party ∈ managedParties psm).
Proof.
  split; [reflexivity|].
  split; [apply NotIncludeAny_true | apply NotIncludeAny_single].
Qed.

(** C7 (as amended).  With a validated registry, that is one with unique
    identifiers, non-empty Resident membership and a table of parties that
    lists exactly the members of the Resident groups, each under the group
    that manages it, [ResolveForManagedParty] of the Multiple strategy
    returns, for a party that a Resident group of the registry manages, the
    metadata of that group; for a party that no group manages, and for any
    key missing from the table of parties, it reports [PartyNotFound] for
    that key instead of some default group. *)
Theorem Multiple_ResolveForManagedParty_correct (m : Multiple.t) (party : string) :
  registry.valid (Multiple.residentGroupByKey m) (Multiple.privacyGroupById m) ->
  (forall g,
      Multiple.privacyGroupById m !! ID g = Some g ->
      Type_ g = Resident ->
      party ∈ managedParties g ->
      Multiple.ResolveForManagedParty m party = Ok g) /\
  (~ registry.configured (Multiple.privacyGroupById m) party ->
   Multiple.ResolveForManagedParty m party = Err (PartyNotFound party)) /\
  (Multiple.residentGroupByKey m !! party = None ->
   Multiple.ResolveForManagedParty m party = Err (PartyNotFound party)).
Proof.
  intros Hvalid. unfold Multiple.ResolveForManagedParty.
  split; [|split].
  - intros g Hg Hres Hin.
    assert (Multiple.residentGroupByKey m !! party = Some g) as ->.
    { apply (registry.parties_indexed _ _ Hvalid). auto. }
    reflexivity.
  - intros Hnot.
    destruct (Multiple.residentGroupByKey m !! party) as [g|] eqn:Hlookup;
      [|reflexivity].
    exfalso. apply Hnot. exists g.
    apply (registry.parties_indexed _ _ Hvalid). exact Hlookup.
  - intros ->. reflexivity.
Qed.
End ManagedParties.

(** C7, the claim as written fails: the groups of this registry have unique
    identifiers and every Resident group has members, the constructor
    accepts its tables, yet the table of parties files [alice] under [B],
    and [ResolveForManagedParty] returns [B] for her although it is [A] that
    manages her.  The manager returns what the table of parties holds; that
    the table agrees with the membership of the groups is not checked. *)
Lemma Multiple_ResolveForManagedParty_swapped_table :
  (forall k g,
      Multiple.privacyGroupById sample_swapped_manager !! k = Some g ->
      mps.ID g = k) /\
  (forall k g,
      Multiple.privacyGroupById sample_swapped_manager !! k = Some g ->
      mps.Type_ g = mps.Resident -> mps.managedParties g <> ∅) /\
  Multiple.newMultiplePrivateStateManager empty_db (@None unit)
    (Multiple.residentGroupByKey sample_swapped_manager)
    (Multiple.privacyGroupById sample_swapped_manager)
    = Ok sample_swapped_manager /\
  Multiple.privacyGroupById sample_swapped_manager !! "A" = Some groupA /\
  ("alice" ∈ mps.managedParties groupA) /\
  ("alice" ∉ mps.managedParties groupB) /\
  Multiple.ResolveForManagedParty sample_swapped_manager "alice" = Ok groupB.
Proof.
  assert (map_Forall (fun k g => mps.ID g = k)
            (Multiple.privacyGroupById sample_swapped_manager)) as Hid.
  { apply (bool_decide_unpack _). vm_compute. exact I. }
  assert (map_Forall
            (fun _ g => mps.Type_ g = mps.Resident -> mps.managedParties g <> ∅)
            (Multiple.privacyGroupById sample_swapped_manager)) as Hmem.
  { apply (bool_decide_unpack _). vm_compute. exact I. }
  split; [intros k g Hg; exact (Hid k g Hg)|].
  split; [intros k g Hg; exact (Hmem k g Hg)|].
  split; [reflexivity|].
  split; [vm_compute; reflexivity|].
  split; [apply (bool_decide_unpack _); vm_compute; exact I|].
  split; [apply (bool_decide_unpack _); vm_compute; exact I|].
  vm_compute. reflexivity.
Qed.

(** C6, the claim as written fails under the Default strategy: [bob] is not
    a managed party of the group [A], yet [NotIncludeAny] is false for
    him. *)
Lemma Default_NotIncludeAny_false_for_outsider :
  ("bob" ∉ mps.managedParties groupA) /\
  Default.NotIncludeAny sample_default_manager groupA ["bob"] = false /\
  ~ (forall psm party,
        Default.NotIncludeAny sample_default_manager psm [party] = false <->
        party ∈ mps.managedParties psm).
Proof.
  assert ("bob" ∉ mps.managedParties groupA) as Hout.
  { vm_compute. set_solver. }
  split; [exact Hout|]. split; [reflexivity|].
  intros Hiff. apply Hout. apply Hiff. reflexivity.
Qed.

(** A registry passes validation when four checks over its two tables do;
    each check is decidable. *)
Lemma registry_valid_of_checks (byKey byId : gmap string mps.PrivateStateMetadata) :
  map_Forall (fun k g => mps.ID g = k) byId ->
  map_Forall (fun _ g => mps.Type_ g = mps.Resident -> mps.managedParties g <> ∅) byId ->
  map_Forall (fun p g =>
                byId !! mps.ID g = Some g /\ mps.Type_ g = mps.Resident /\
                p ∈ mps.managedParties g) byKey ->
  map_Forall (fun _ g =>
                mps.Type_ g = mps.Resident ->
                set_Forall (fun p => byKey !! p = Some g) (mps.managedParties g)) byId ->
  registry.valid byKey byId.
Proof.
  intros Hid Hmem Hsound Hcomplete. split.
  - intros k g Hg. exact (Hid k g Hg).
  - intros k g Hg. exact (Hmem k g Hg).
  - intros p g. split.
    + intros Hp. exact (Hsound p g Hp).
    + intros (Hg & Hres & Hin). exact (Hcomplete _ g Hg Hres p Hin).
Qed.

Lemma sample_registry_valid :
  registry.valid (Multiple.residentGroupByKey sample_multiple_manager)
                 (Multiple.privacyGroupById sample_multiple_manager).
Proof.
  apply registry_valid_of_checks;
    apply (bool_decide_unpack _); vm_compute; exact I.
Qed.

(** [Multiple_ResolveForManagedParty_correct] at the sample registry: [alice]
    is resolved to her group [A], the unknown [zoe] is refused. *)
Lemma Multiple_ResolveForManagedParty_correct_witness :
  Multiple.ResolveForManagedParty sample_multiple_manager "alice" = Ok groupA /\
  Multiple.ResolveForManagedParty sample_multiple_manager "zoe"
    = Err (PartyNotFound "zoe").
Proof.
  split.
  - destruct (Multiple_ResolveForManagedParty_correct
                sample_multiple_manager "alice" sample_registry_valid)
      as (Hconfigured & _ & _).
    apply (Hconfigured groupA);
      [vm_compute; reflexivity | reflexivity
      | apply (bool_decide_unpack _); vm_compute; exact I].
  - destruct (Multiple_ResolveForManagedParty_correct
                sample_multiple_manager "zoe" sample_registry_valid)
      as (_ & _ & Habsent).
    apply Habsent. vm_compute. reflexivity.
Defined.

(** ** The proposer policy through TOML *)

Section TomlLine.

Lemma strip_newline_app (digits : string) :
  toml_line.strip_newline (digits ++ toml_line.newline) = Some digits.
Proof.
  induction digits as [|a digits IH]; [reflexivity|].
  destruct digits as [|b digits]; [reflexivity|].
  change (option_map (String a)
            (toml_line.strip_newline (String b digits ++ toml_line.newline))
          = Some (String a (String b digits))).
  rewrite IH. reflexivity.
Qed.

Lemma strip_prefix_app (prefix rest : string) :
  toml_line.strip_prefix prefix (prefix ++ rest) = Some rest.
Proof.
  induction prefix as [|a prefix IH]; simpl.
  - destruct rest; reflexivity.
  - rewrite Ascii.eqb_refl. exact IH.
Qed.

(** The line codec meets the codec law. *)
Lemma toml_line_round_trip :
  istanbul.codec_round_trip toml_line.Marshal toml_line.Unmarshal.
Proof.
  intros [n] Hn. simpl in Hn. eexists. split; [reflexivity|].
  intros pp0. unfold toml_line.Unmarshal.
  rewrite string_of_list_byte_of_string.
  rewrite strip_prefix_app, strip_newline_app.
  cbn [proposerPolicyToml.Id].
  rewrite NilEmpty.usu, DecimalN.Unsigned.of_to.
  apply N.ltb_lt in Hn. rewrite Hn. reflexivity.
Qed.
End TomlLine.

(** C10.  Whenever the TOML codec reads back what it writes for the struct
    [proposerPolicyToml], a policy [p] written with [MarshalTOML] and read
    with [UnmarshalTOML] into any policy [fresh] succeeds, and leaves in
    [fresh] the [Id] of [p] and the default string sort as [By]; the registry
    and the mutex of [fresh] are as they were, and nothing else of [p] comes
    through. *)
Theorem ProposerPolicy_toml_round_trip
    {ValidatorSortByFunc ValidatorSet : Type}
    (ValidatorSortByString : ValidatorSortByFunc)
    (toml_Marshal : proposerPolicyToml.t -> result (list byte))
    (toml_Unmarshal : list byte -> proposerPolicyToml.t -> result proposerPolicyToml.t)
    (p fresh : istanbul.ProposerPolicy ValidatorSortByFunc ValidatorSet) :
  istanbul.codec_round_trip toml_Marshal toml_Unmarshal ->
  istanbul.is_uint64 (istanbul.Id p) ->
  exists bytes read,
    istanbul.MarshalTOML toml_Marshal p = Ok bytes /\
    istanbul.UnmarshalTOML ValidatorSortByString toml_Unmarshal bytes fresh
      = (None, read) /\
    istanbul.Id read = istanbul.Id p /\
    istanbul.By read = ValidatorSortByString /\
    istanbul.registry read = istanbul.registry fresh /\
    istanbul.registryMU read = istanbul.registryMU fresh.
Proof.
  intros Hcodec Hid.
  destruct (Hcodec {| proposerPolicyToml.Id := istanbul.Id p |} Hid)
    as (bytes & Hwrite & Hread).
  exists bytes. eexists. split; [exact Hwrite|].
  unfold istanbul.UnmarshalTOML. rewrite Hread. simpl.
  repeat split.
Qed.

(** [ProposerPolicy_toml_round_trip] for the line codec: a Sticky policy
    read into a RoundRobin policy that sorts differently. *)
Lemma ProposerPolicy_toml_round_trip_witness :
  exists bytes read,
    istanbul.MarshalTOML toml_line.Marshal sample_sticky = Ok bytes /\
    istanbul.UnmarshalTOML sample_sort_by_string toml_line.Unmarshal bytes
      sample_fresh = (None, read) /\
    istanbul.Id read = istanbul.Sticky /\
    istanbul.By read = sample_sort_by_string /\
    istanbul.registry read = istanbul.registry sample_fresh /\
    istanbul.registryMU read = istanbul.registryMU sample_fresh.
Proof.
  apply (ProposerPolicy_toml_round_trip sample_sort_by_string
           toml_line.Marshal toml_line.Unmarshal sample_sticky sample_fresh).
  - exact toml_line_round_trip.
  - vm_compute. reflexivity.
Defined.

(** * Further properties of the code *)

(** ** The QBFT fork block *)

Section QBFT.
Context {ValidatorSortByFunc ValidatorSet : Type}.
Implicit Types c : config.Config ValidatorSortByFunc ValidatorSet.

Lemma big_Uint64_height (x : Z) : (0 <= x < 2 ^ 63)%Z -> big.Uint64 x = x.
Proof.
  intros Hx. unfold big.Uint64.
  rewrite Z.abs_eq by lia. apply Z.mod_small. lia.
Qed.

Lemma big_Int64_height (x : Z) : (0 <= x < 2 ^ 63)%Z -> big.Int64 x = x.
Proof.
  intros Hx. unfold big.Int64. rewrite big_Uint64_height by exact Hx.
  destruct (Z.ltb_spec x 0) as [Hneg|_]; [lia|].
  unfold big.to_int64. rewrite Z.mod_small by lia. lia.
Qed.

Lemma big_Cmp_ge (x y : Z) : (big.Cmp x y >=? 0)%Z = (y <=? x)%Z.
Proof.
  unfold big.Cmp.
  destruct (Z.compare_spec x y) as [Heq|Hlt|Hgt];
    destruct (Z.leb_spec y x); try reflexivity; lia.
Qed.

(** With a block number at hand the check is a plain test on the fork
    block. *)
Lemma IsQBFTConsensusAt_number c (number : Z) :
  config.IsQBFTConsensusAt (Some c) (Some number) =
  match config.TestQBFTBlock c with
  | None => Returns false
  | Some qbftBlock =>
      Returns ((big.Uint64 qbftBlock =? 0)%Z || (qbftBlock <=? number)%Z)
  end.
Proof.
  unfold config.IsQBFTConsensusAt.
  destruct (config.TestQBFTBlock c) as [qbftBlock|]; [|reflexivity].
  rewrite big_Cmp_ge.
  destruct (big.Uint64 qbftBlock =? 0)%Z; [reflexivity|].
  destruct (qbftBlock <=? number)%Z; reflexivity.
Qed.

(** X1.  Once QBFT is on it stays on: if [IsQBFTConsensusAt] is true at a
    block number, it is true at every later block number. *)
Theorem IsQBFTConsensusAt_monotone
    (receiver : option (config.Config ValidatorSortByFunc ValidatorSet))
    (number later : Z) :
  (number <= later)%Z ->
  config.IsQBFTConsensusAt receiver (Some number) = Returns true ->
  config.IsQBFTConsensusAt receiver (Some later) = Returns true.
Proof.
  intros Hle. destruct receiver as [c|]; [|discriminate].
  rewrite !IsQBFTConsensusAt_number.
  destruct (config.TestQBFTBlock c) as [qbftBlock|]; [|discriminate].
  intros Hon. injection Hon as Hon. f_equal.
  apply orb_true_iff in Hon as [Hzero|Hreached].
  - rewrite Hzero. reflexivity.
  - apply orb_true_iff. right.
    apply Z.leb_le in Hreached. apply Z.leb_le. lia.
Qed.

(** X2.  [IsQBFTConsensusAt] panics in two situations and no other: the
    receiver is nil; or the block number is nil while the fork block is
    defined with low 64 bits that are not zero.  On a receiver that is not
    nil, a nil block number is never looked at when there is no fork block or
    the fork block is zero, and a call with a block number always
    returns. *)
Theorem IsQBFTConsensusAt_panics_iff
    (receiver : option (config.Config ValidatorSortByFunc ValidatorSet))
    (blockNumber : option Z) :
  config.IsQBFTConsensusAt receiver blockNumber = Panics <->
  receiver = None \/
  (blockNumber = None /\
   exists c qbftBlock,
     receiver = Some c /\
     config.TestQBFTBlock c = Some qbftBlock /\ big.Uint64 qbftBlock <> 0%Z).
Proof.
  unfold config.IsQBFTConsensusAt.
  destruct receiver as [c|]; [|split; [intros _; left; reflexivity | reflexivity]].
  destruct (config.TestQBFTBlock c) as [qbftBlock|] eqn:Hfork.
  - destruct (Z.eqb_spec (big.Uint64 qbftBlock) 0) as [Hzero|Hnonzero].
    + split; [discriminate|].
      intros [Hnil|(_ & c' & t & Hc & Ht & Hne)]; [discriminate Hnil|].
      injection Hc as <-. rewrite Hfork in Ht. injection Ht as <-.
      contradiction.
    + destruct blockNumber as [number|].
      * split; [destruct (big.Cmp number qbftBlock >=? 0)%Z; discriminate|].
        intros [Hnil|[Hnil _]]; discriminate Hnil.
      * split; [|reflexivity]. intros _. right. split; [reflexivity|].
        exists c, qbftBlock. split; [reflexivity|].
        split; [exact Hfork | exact Hnonzero].
  - split; [discriminate|].
    intros [Hnil|(_ & c' & t & Hc & Ht & _)]; [discriminate Hnil|].
    injection Hc as <-. rewrite Hfork in Ht. discriminate Ht.
Qed.

(** X3.  The two readers of the fork block agree: when the fork block, if
    there is one, is a block height, QBFT is on at a block number that is not
    negative exactly when [QBFTBlockNumber] lies between zero and that
    number. *)
Theorem IsQBFTConsensusAt_QBFTBlockNumber c (number : Z) :
  fork_block_is_height c ->
  (0 <= number)%Z ->
  config.IsQBFTConsensusAt (Some c) (Some number) =
  Returns (bool_decide (0 <= config.QBFTBlockNumber c <= number)%Z).
Proof.
  intros Hheight Hnumber. rewrite IsQBFTConsensusAt_number.
  unfold config.QBFTBlockNumber.
  destruct (config.TestQBFTBlock c) as [qbftBlock|] eqn:Hfork.
  - pose proof (Hheight qbftBlock Hfork) as Hrange.
    rewrite big_Uint64_height, big_Int64_height by exact Hrange.
    f_equal.
    destruct (Z.eqb_spec qbftBlock 0) as [->|Hne]; simpl.
    + rewrite bool_decide_eq_true_2 by lia. reflexivity.
    + destruct (Z.leb_spec qbftBlock number).
      * rewrite bool_decide_eq_true_2 by lia. reflexivity.
      * rewrite bool_decide_eq_false_2 by lia. reflexivity.
  - rewrite bool_decide_eq_false_2 by lia. reflexivity.
Qed.

(** X4.  [QBFTBlockNumber] uses minus one for "no fork block" without
    ambiguity as long as fork blocks are block heights: it is minus one
    exactly when the fork block is not defined, and the fork block itself
    otherwise. *)
Theorem QBFTBlockNumber_undefined_iff c :
  fork_block_is_height c ->
  (config.QBFTBlockNumber c = (-1)%Z <-> config.TestQBFTBlock c = None) /\
  (forall qbftBlock,
      config.TestQBFTBlock c = Some qbftBlock ->
      config.QBFTBlockNumber c = qbftBlock).
Proof.
  intros Hheight. unfold config.QBFTBlockNumber.
  destruct (config.TestQBFTBlock c) as [qbftBlock|] eqn:Hfork.
  - pose proof (Hheight qbftBlock Hfork) as Hrange.
    rewrite big_Int64_height by exact Hrange. split.
    + split; [lia | discriminate].
    + intros t Ht. injection Ht as <-. reflexivity.
  - split; [split; reflexivity | discriminate].
Qed.
End QBFT.

Lemma sample_config_height : fork_block_is_height sample_config.
Proof. intros t Ht. injection Ht as <-. lia. Qed.

Lemma IsQBFTConsensusAt_monotone_witness :
  config.IsQBFTConsensusAt (Some sample_config) (Some 9%Z) = Returns true.
Proof.
  apply (IsQBFTConsensusAt_monotone (Some sample_config) 5%Z 9%Z);
    [lia | vm_compute; reflexivity].
Defined.

Lemma IsQBFTConsensusAt_QBFTBlockNumber_witness :
  config.IsQBFTConsensusAt (Some sample_config) (Some 4%Z) =
  Returns (bool_decide (0 <= config.QBFTBlockNumber sample_config <= 4)%Z).
Proof.
  apply (IsQBFTConsensusAt_QBFTBlockNumber sample_config 4%Z);
    [exact sample_config_height | lia].
Defined.

Lemma QBFTBlockNumber_undefined_iff_witness :
  config.QBFTBlockNumber sample_config = 5%Z.
Proof.
  destruct (QBFTBlockNumber_undefined_iff sample_config sample_config_height)
    as [_ Hdefined].
  apply Hdefined. reflexivity.
Defined.

(** ** The registry of validator sets *)

Section PolicyRegistry.
Context {ValidatorSortByFunc ValidatorSet : Type}.
Variable ValidatorSortByString : ValidatorSortByFunc.
Variable toml_Marshal : proposerPolicyToml.t -> result (list byte).
Variable toml_Unmarshal :
  list byte -> proposerPolicyToml.t -> result proposerPolicyToml.t.
Variable SortValidators :
  ValidatorSortByFunc -> ValidatorSet -> outcome unit * ValidatorSet.

Implicit Types p : istanbul.ProposerPolicy ValidatorSortByFunc ValidatorSet.
Implicit Types cs : list (policy.call ValidatorSortByFunc ValidatorSet).

Local Abbreviation UnmarshalTOML :=
  (istanbul.UnmarshalTOML ValidatorSortByString toml_Unmarshal).
Local Abbreviation run_call :=
  (policy.run_call ValidatorSortByString toml_Unmarshal SortValidators).
Local Abbreviation run_calls :=
  (policy.run_calls ValidatorSortByString toml_Unmarshal SortValidators).
Local Abbreviation sorted :=
  (fun v validatorSet => snd (SortValidators v validatorSet)).

Lemma locked_update_free
    (body : list ValidatorSet -> list ValidatorSet) p :
  policy.mutex_free p ->
  policy.locked_update body p =
  (Returns tt,
   {| istanbul.Id := istanbul.Id p;
      istanbul.By := istanbul.By p;
      istanbul.registry := body (istanbul.registry p);
      istanbul.registryMU := Some {| istanbul.locked := false |} |}).
Proof.
  unfold policy.mutex_free, policy.locked_update. intros ->. reflexivity.
Qed.

(** Registering appends, on an empty registry as on any other. *)
Lemma register_body (valSet : ValidatorSet) (registry : list ValidatorSet) :
  (if (length registry =? 0)%nat then [valSet] else (registry ++ [valSet])%list)
  = (registry ++ [valSet])%list.
Proof. destruct registry; reflexivity. Qed.

(** [Use] assigns [By] and sorts; it leaves the identifier and the mutex
    alone, however the sorting ends. *)
Lemma Use_frame (v : ValidatorSortByFunc) p :
  (fst (policy.Use SortValidators v p),
   istanbul.registry (snd (policy.Use SortValidators v p)))
    = policy.sort_all SortValidators v (istanbul.registry p) /\
  istanbul.Id (snd (policy.Use SortValidators v p)) = istanbul.Id p /\
  istanbul.By (snd (policy.Use SortValidators v p)) = v /\
  istanbul.registryMU (snd (policy.Use SortValidators v p)) = istanbul.registryMU p.
Proof.
  unfold policy.Use; simpl.
  destruct (policy.sort_all SortValidators v (istanbul.registry p)) as [ended registry'].
  repeat split.
Qed.

Lemma run_call_step (c : policy.call ValidatorSortByFunc ValidatorSet) p :
  policy.mutex_free p ->
  (fst (run_call c p), istanbul.registry (snd (run_call c p)))
    = policy.registry_step SortValidators (istanbul.registry p) c /\
  policy.mutex_free (snd (run_call c p)).
Proof.
  intros Hfree. destruct c as [v|valSet| |input]; simpl.
  - destruct (Use_frame v p) as (Hsort & _ & _ & Hmu).
    split; [exact Hsort|]. unfold policy.mutex_free. rewrite Hmu. exact Hfree.
  - unfold policy.RegisterValidatorSet. rewrite locked_update_free by exact Hfree.
    simpl. rewrite register_body. split; reflexivity.
  - unfold policy.ClearRegistry. rewrite locked_update_free by exact Hfree.
    split; reflexivity.
  - unfold istanbul.UnmarshalTOML.
    destruct (toml_Unmarshal input proposerPolicyToml.zero); simpl;
      (split; [reflexivity | exact Hfree]).
Qed.

Lemma run_calls_run cs : forall p,
  policy.mutex_free p ->
  (fst (run_calls cs p), istanbul.registry (snd (run_calls cs p)))
    = policy.registry_run SortValidators (istanbul.registry p) cs /\
  policy.mutex_free (snd (run_calls cs p)).
Proof.
  induction cs as [|c cs IH]; intros p Hfree.
  - split; [reflexivity | exact Hfree].
  - destruct (run_call_step c p Hfree) as [Hstep Hfree1].
    simpl. rewrite <- Hstep.
    destruct (run_call c p) as [ended p1]; simpl in *.
    destruct ended as [[]| |].
    + apply IH. exact Hfree1.
    + split; [reflexivity | exact Hfree1].
    + split; [reflexivity | exact Hfree1].
Qed.

(** When sorting returns on the registered sets, the loop of [Use] runs to
    its end and maps every set to its sorted form. *)
Lemma sort_all_returns (sortable : ValidatorSet -> Prop)
    (v : ValidatorSortByFunc) (registry : list ValidatorSet) :
  policy.sort_returns SortValidators sortable ->
  Forall sortable registry ->
  policy.sort_all SortValidators v registry = (Returns tt, sorted v <$> registry) /\
  Forall sortable (sorted v <$> registry).
Proof.
  intros Hsort. induction registry as [|validatorSet rest IH]; intros Hall.
  - split; [reflexivity | constructor].
  - apply Forall_cons in Hall as [Hset Hrest].
    destruct (IH Hrest) as [Hloop Hsorted].
    destruct (Hsort v validatorSet Hset) as (set' & Hcall & Hset').
    simpl. rewrite Hcall, Hloop. simpl.
    split; [reflexivity|]. constructor; [exact Hset' | exact Hsorted].
Qed.

Lemma registry_run_returns (sortable : ValidatorSet -> Prop) cs :
  policy.sort_returns SortValidators sortable ->
  forall registry,
    Forall sortable registry ->
    policy.registers sortable cs ->
    policy.registry_run SortValidators registry cs
      = (Returns tt, foldl (policy.sorted_step SortValidators) registry cs).
Proof.
  intros Hsort. induction cs as [|c cs IH]; intros registry Hall Hcs;
    [reflexivity|].
  apply Forall_cons in Hcs as [Hc Hcs]. simpl.
  destruct c as [v|valSet| |input]; simpl.
  - destruct (sort_all_returns sortable v registry Hsort Hall) as [-> Hsorted].
    apply IH; assumption.
  - apply IH; [|exact Hcs]. apply Forall_app. split; [exact Hall|].
    constructor; [exact Hc | constructor].
  - apply IH; [constructor | exact Hcs].
  - apply IH; assumption.
Qed.

(** X5.  A policy whose mutex is in place and free can take any sequence of
    [Use], [RegisterValidatorSet], [ClearRegistry] and [UnmarshalTOML] calls,
    provided sorting returns on the sets involved: when [SortValidators]
    returns on a class of sets and stays within it, the registry holds only
    such sets and only such sets are registered, every call returns, none
    panics or waits, the mutex is in place and free again afterwards, and
    the registry is the list obtained by appending for each registration,
    emptying for each clearing and sorting every set in place for each
    [Use]. *)
Theorem policy_calls_return (sortable : ValidatorSet -> Prop) cs p :
  policy.mutex_free p ->
  policy.sort_returns SortValidators sortable ->
  Forall sortable (istanbul.registry p) ->
  policy.registers sortable cs ->
  fst (run_calls cs p) = Returns tt /\
  policy.mutex_free (snd (run_calls cs p)) /\
  istanbul.registry (snd (run_calls cs p)) =
    foldl (policy.sorted_step SortValidators) (istanbul.registry p) cs.
Proof.
  intros Hfree Hsort Hall Hcs.
  destruct (run_calls_run cs p Hfree) as [Hrun Hfree'].
  rewrite (registry_run_returns sortable cs Hsort _ Hall Hcs) in Hrun.
  injection Hrun as Hended Hregistry.
  split; [exact Hended|]. split; [exact Hfree' | exact Hregistry].
Qed.


(** X7.  [UnmarshalTOML] never allocates the mutex: a policy without one
    still has none after it, whatever the input, and [RegisterValidatorSet]
    and [ClearRegistry] then panic and leave the policy as it was. *)
Theorem decoded_policy_panics (input : list byte) (valSet : ValidatorSet) p :
  istanbul.registryMU p = None ->
  let decoded := snd (UnmarshalTOML input p) in
  istanbul.registryMU decoded = None /\
  policy.RegisterValidatorSet valSet decoded = (Panics, decoded) /\
  policy.ClearRegistry decoded = (Panics, decoded).
Proof.
  intros Hnil decoded.
  assert (istanbul.registryMU decoded = None) as Hdecoded.
  { subst decoded. unfold istanbul.UnmarshalTOML.
    destruct (toml_Unmarshal input proposerPolicyToml.zero); exact Hnil. }
  split; [exact Hdecoded|].
  unfold policy.RegisterValidatorSet, policy.ClearRegistry, policy.locked_update.
  rewrite Hdecoded. split; reflexivity.
Qed.

(** X8.  Reading a policy twice: a second read that fails changes nothing,
    and a second read that succeeds leaves exactly what it would have left
    without the first, so the last successful read wins and reading the same
    input again has no further effect. *)
Theorem UnmarshalTOML_last_read_wins (first second : list byte) p :
  snd (UnmarshalTOML second (snd (UnmarshalTOML first p))) =
  match error_of (toml_Unmarshal second proposerPolicyToml.zero) with
  | None => snd (UnmarshalTOML second p)
  | Some _ => snd (UnmarshalTOML first p)
  end.
Proof.
  unfold istanbul.UnmarshalTOML.
  destruct (toml_Unmarshal second proposerPolicyToml.zero) as [pp2|e2]; simpl;
    [|reflexivity].
  destruct (toml_Unmarshal first proposerPolicyToml.zero); reflexivity.
Qed.

Lemma run_call_Id (c : policy.call ValidatorSortByFunc ValidatorSet) p :
  policy.is_decode c = false ->
  istanbul.Id (snd (run_call c p)) = istanbul.Id p.
Proof.
  destruct c as [v|valSet| |input]; simpl; intros Hc; try discriminate Hc.
  - apply Use_frame.
  - unfold policy.RegisterValidatorSet, policy.locked_update.
    destruct (sync.Lock (istanbul.registryMU p)) as [held| |]; try reflexivity.
    destruct (sync.Unlock held); reflexivity.
  - unfold policy.ClearRegistry, policy.locked_update.
    destruct (sync.Lock (istanbul.registryMU p)) as [held| |]; try reflexivity.
    destruct (sync.Unlock held); reflexivity.
Qed.

Lemma run_calls_Id cs : forall p,
  forallb (fun c => negb (policy.is_decode c)) cs = true ->
  istanbul.Id (snd (run_calls cs p)) = istanbul.Id p.
Proof.
  induction cs as [|c cs IH]; intros p Hcs; [reflexivity|].
  simpl in Hcs. apply andb_true_iff in Hcs as [Hc Hcs].
  apply negb_true_iff in Hc.
  pose proof (run_call_Id c p Hc) as Hid.
  simpl. destruct (run_call c p) as [[[]| |] p1]; simpl in Hid.
  - rewrite (IH p1 Hcs). exact Hid.
  - exact Hid.
  - exact Hid.
Qed.

(** X9.  The TOML form of a policy does not see its sort function or its
    registry: after any calls of [Use], [RegisterValidatorSet] and
    [ClearRegistry], returned or not, [MarshalTOML] writes what it wrote
    before. *)
Theorem MarshalTOML_ignores_registry cs p :
  forallb (fun c => negb (policy.is_decode c)) cs = true ->
  istanbul.MarshalTOML toml_Marshal (snd (run_calls cs p)) =
  istanbul.MarshalTOML toml_Marshal p.
Proof.
  intros Hcs. unfold istanbul.MarshalTOML.
  rewrite (run_calls_Id cs p Hcs). reflexivity.
Qed.
End PolicyRegistry.

Lemma sample_sort_nilable_returns :
  policy.sort_returns sample_sort_nilable is_Some.
Proof.
  intros v [names|] Hsome.
  - eexists. split; [reflexivity | eexists; reflexivity].
  - destruct Hsome as [names Hnames]. discriminate Hnames.
Qed.

Lemma sample_nilable_calls_register :
  policy.registers is_Some sample_nilable_calls.
Proof.
  repeat constructor; eexists; reflexivity.
Qed.

Lemma policy_calls_return_witness :
  fst (policy.run_calls sample_sort_by_string toml_line.Unmarshal
         sample_sort_nilable sample_nilable_calls sample_nilable_policy)
    = Returns tt /\
  istanbul.registry
    (snd (policy.run_calls sample_sort_by_string toml_line.Unmarshal
            sample_sort_nilable sample_nilable_calls sample_nilable_policy))
    = [Some ["v1"; "v2"]; Some ["v3"]].
Proof.
  destruct (policy_calls_return sample_sort_by_string toml_line.Unmarshal
              sample_sort_nilable is_Some sample_nilable_calls
              sample_nilable_policy)
    as (Hreturns & _ & Hregistry).
  - reflexivity.
  - exact sample_sort_nilable_returns.
  - constructor.
  - exact sample_nilable_calls_register.
  - split; [exact Hreturns | exact Hregistry].
Defined.


Lemma decoded_policy_panics_witness :
  policy.RegisterValidatorSet ["v1"]
    (snd (istanbul.UnmarshalTOML sample_sort_by_string toml_line.Unmarshal
            (list_byte_of_string ("Id = 0" ++ toml_line.newline)) sample_decoded))
  = (Panics,
     snd (istanbul.UnmarshalTOML sample_sort_by_string toml_line.Unmarshal
            (list_byte_of_string ("Id = 0" ++ toml_line.newline)) sample_decoded)).
Proof.
  apply (decoded_policy_panics sample_sort_by_string toml_line.Unmarshal
           (list_byte_of_string ("Id = 0" ++ toml_line.newline)) ["v1"]
           sample_decoded).
  reflexivity.
Defined.

Lemma MarshalTOML_ignores_registry_witness :
  istanbul.MarshalTOML toml_line.Marshal
    (snd (policy.run_calls sample_sort_by_string toml_line.Unmarshal
            sample_sort_validators sample_calls sample_sticky))
  = istanbul.MarshalTOML toml_line.Marshal sample_sticky.
Proof.
  apply (MarshalTOML_ignores_registry sample_sort_by_string toml_line.Marshal
           toml_line.Unmarshal sample_sort_validators sample_calls sample_sticky).
  reflexivity.
Defined.

(** ** The managers: listing against resolving *)

Lemma is_Ok_lookup {A : Type} (found : option A) (e : error) :
  is_Ok (match found with Some a => Ok a | None => Err e end) <-> is_Some found.
Proof.
  destruct found as [a|]; split.
  - intros _. exists a. reflexivity.
  - intros _. exists a. reflexivity.
  - intros [a Ha]. discriminate Ha.
  - intros [a Ha]. discriminate Ha.
Qed.

Lemma Multiple_ResolveForUserContext_lookup
    (DefaultPrivateStateIdentifier : PrivateStateIdentifier)
    (m : Multiple.t) (ctx : context.Context) :
  Multiple.ResolveForUserContext DefaultPrivateStateIdentifier m ctx =
  let psi := rpc.context_psi DefaultPrivateStateIdentifier ctx in
  match Multiple.privacyGroupById m !! psi with
  | Some psm => Ok psm
  | None => Err (UnknownPSI psi)
  end.
Proof.
  unfold Multiple.ResolveForUserContext, rpc.PrivateStateIdentifierFromContext,
    rpc.context_psi.
  destruct ctx as [[psi|]]; reflexivity.
Qed.

(** X10.  What [PSIs] of the Multiple strategy may return is settled up to
    order and no further: given one possible result, the possible results are
    exactly its permutations. *)
Theorem Multiple_PSIs_up_to_order
    (m : Multiple.t) (psis psis' : list PrivateStateIdentifier) :
  Multiple.PSIs m psis ->
  (Multiple.PSIs m psis' <-> psis ≡ₚ psis').
Proof.
  intros (visit & Hvisit & ->). rewrite PSIs_loop_id. split.
  - intros (visit' & Hvisit' & ->). rewrite PSIs_loop_id.
    apply NoDup_Permutation; [apply Hvisit | apply Hvisit' |].
    intros psi.
    rewrite (range_order_elem _ _ Hvisit), (range_order_elem _ _ Hvisit').
    reflexivity.
  - intros Hperm. exists psis'. split; [|symmetry; apply PSIs_loop_id].
    destruct Hvisit as [Hnodup Hdom]. split.
    + rewrite <- Hperm. exact Hnodup.
    + rewrite <- Hdom. symmetry. apply list_to_set_perm_L. exact Hperm.
Qed.

(** X11.  Under the Multiple strategy [PSIs] lists exactly the identifiers
    that resolve: a context carrying a PSI is resolved iff that PSI is
    listed, and a context without one is resolved iff the reserved default
    identifier is listed. *)
Theorem Multiple_PSIs_lists_resolvable
    (DefaultPrivateStateIdentifier : PrivateStateIdentifier)
    (m : Multiple.t) (psis : list PrivateStateIdentifier)
    (psi : PrivateStateIdentifier) :
  Multiple.PSIs m psis ->
  (psi ∈ psis <->
   is_Ok (Multiple.ResolveForUserContext DefaultPrivateStateIdentifier m
            (context.WithPSI psi))) /\
  (DefaultPrivateStateIdentifier ∈ psis <->
   is_Ok (Multiple.ResolveForUserContext DefaultPrivateStateIdentifier m
            context.Background)).
Proof.
  intros (visit & Hvisit & ->). rewrite PSIs_loop_id.
  rewrite !Multiple_ResolveForUserContext_lookup.
  unfold rpc.context_psi; simpl.
  rewrite !is_Ok_lookup, !(range_order_elem _ _ Hvisit).
  split; reflexivity.
Qed.

(** X12.  Under the Default strategy resolving and listing do not agree:
    every context is resolved, to a record that bears the PSI of the context,
    while [PSIs] lists the reserved default identifier alone; the record's
    identifier is a listed one only for a context without a PSI or with the
    reserved one. *)
Theorem Default_resolves_unlisted
    (DefaultPrivateStateIdentifier : PrivateStateIdentifier)
    (d : Default.t) (ctx : context.Context) :
  exists psm,
    Default.ResolveForUserContext DefaultPrivateStateIdentifier d ctx = Ok psm /\
    (mps.ID psm ∈ Default.PSIs DefaultPrivateStateIdentifier d <->
     context.privateStateIdentifier ctx = None \/
     context.privateStateIdentifier ctx = Some DefaultPrivateStateIdentifier).
Proof.
  rewrite Default_ResolveForUserContext_eq. eexists. split; [reflexivity|].
  unfold Default.PSIs, rpc.context_psi; simpl.
  rewrite list_elem_of_singleton.
  destruct ctx as [[psi|]]; simpl.
  - split.
    + intros ->. right. reflexivity.
    + intros [Hnone|Hsome]; [discriminate Hnone|].
      injection Hsome as ->. reflexivity.
  - split; [intros _; left; reflexivity | reflexivity].
Qed.

(** X13.  With a validated registry the three resolutions of the Multiple
    strategy agree: the group that [ResolveForManagedParty] returns for a
    party manages that party, its identifier is among those that [PSIs]
    lists, and [ResolveForUserContext] returns the same group for that
    identifier. *)
Theorem Multiple_resolutions_agree
    (DefaultPrivateStateIdentifier : PrivateStateIdentifier)
    (m : Multiple.t) (party : string) (g : mps.PrivateStateMetadata)
    (psis : list PrivateStateIdentifier) :
  registry.valid (Multiple.residentGroupByKey m) (Multiple.privacyGroupById m) ->
  Multiple.ResolveForManagedParty m party = Ok g ->
  Multiple.PSIs m psis ->
  party ∈ mps.managedParties g /\
  mps.ID g ∈ psis /\
  Multiple.ResolveForUserContext DefaultPrivateStateIdentifier m
    (context.WithPSI (mps.ID g)) = Ok g.
Proof.
  intros Hvalid Hresolve (visit & Hvisit & ->). rewrite PSIs_loop_id.
  unfold Multiple.ResolveForManagedParty in Hresolve.
  destruct (Multiple.residentGroupByKey m !! party) as [g'|] eqn:Hparty;
    [|discriminate Hresolve].
  injection Hresolve as ->.
  apply (registry.parties_indexed _ _ Hvalid) in Hparty
    as (Hfiled & _ & Hmember).
  split; [exact Hmember|]. split.
  - apply (range_order_elem _ _ Hvisit). exists g. exact Hfiled.
  - rewrite Multiple_ResolveForUserContext_lookup.
    unfold rpc.context_psi; simpl.
    unfold PrivateStateIdentifier in *. rewrite Hfiled. reflexivity.
Qed.

(** X14.  The manager resolves parties from the table it was built with:
    building it with one more binding, of [party] to [g], makes [party]
    resolve to [g] and changes the resolution of no other key; a key without
    a binding is refused with an error that names it. *)
Theorem Multiple_constructed_resolves
    {Config : Type} (db : ethdb.Database) (config : option Config)
    (byKey byId : gmap string mps.PrivateStateMetadata)
    (m m' : Multiple.t) (party other : string) (g : mps.PrivateStateMetadata) :
  Multiple.newMultiplePrivateStateManager db config byKey byId = Ok m ->
  Multiple.newMultiplePrivateStateManager db config (<[party := g]> byKey) byId
    = Ok m' ->
  Multiple.ResolveForManagedParty m' party = Ok g /\
  (other <> party ->
   Multiple.ResolveForManagedParty m' other =
   Multiple.ResolveForManagedParty m other) /\
  (byKey !! other = None ->
   Multiple.ResolveForManagedParty m other = Err (PartyNotFound other)).
Proof.
  unfold Multiple.newMultiplePrivateStateManager.
  intros Hm Hm'. injection Hm as <-. injection Hm' as <-.
  unfold Multiple.ResolveForManagedParty; simpl.
  split; [rewrite lookup_insert_eq; reflexivity|]. split.
  - intros Hne. rewrite lookup_insert_ne by congruence. reflexivity.
  - intros ->. reflexivity.
Qed.

Lemma sample_PSIs_BA : Multiple.PSIs sample_multiple_manager ["B"; "A"].
Proof. exists ["B"; "A"]. split; [exact sample_range_BA | reflexivity]. Qed.

Lemma Multiple_PSIs_up_to_order_witness :
  Multiple.PSIs sample_multiple_manager ["A"; "B"].
Proof.
  apply (Multiple_PSIs_up_to_order sample_multiple_manager ["B"; "A"] ["A"; "B"]
           sample_PSIs_BA).
  apply perm_swap.
Defined.

Lemma Multiple_PSIs_lists_resolvable_witness :
  is_Ok (Multiple.ResolveForUserContext sample_default sample_multiple_manager
           (context.WithPSI "A")).
Proof.
  destruct (Multiple_PSIs_lists_resolvable sample_default
              sample_multiple_manager ["B"; "A"] "A" sample_PSIs_BA)
    as [Hlisted _].
  apply Hlisted. apply (bool_decide_unpack _). vm_compute. exact I.
Defined.

Lemma Multiple_resolutions_agree_witness :
  "alice" ∈ mps.managedParties groupA /\
  "A" ∈ ["B"; "A"] /\
  Multiple.ResolveForUserContext sample_default sample_multiple_manager
    (context.WithPSI "A") = Ok groupA.
Proof.
  apply (Multiple_resolutions_agree sample_default sample_multiple_manager
           "alice" groupA ["B"; "A"]).
  - exact sample_registry_valid.
  - vm_compute. reflexivity.
  - exact sample_PSIs_BA.
Defined.

Lemma Multiple_constructed_resolves_witness :
  Multiple.ResolveForManagedParty sample_multiple_manager "bob" = Ok groupB.
Proof.
  destruct (Multiple_constructed_resolves empty_db (@None unit)
              (<["alice" := groupA]> ∅) (registry.registered [groupA; groupB])
              {| Multiple.db := empty_db;
                 Multiple.privateStatesTrieCache :=
                   state.NewDatabaseWithConfig empty_db (@None unit);
                 Multiple.residentGroupByKey := <["alice" := groupA]> ∅;
                 Multiple.privacyGroupById := registry.registered [groupA; groupB] |}
              sample_multiple_manager "bob" "alice" groupB
              eq_refl eq_refl) as [Hbob _].
  exact Hbob.
Defined.
